(** * mars-sim: the Monte Carlo colony simulator of [mcs.py]

    A shallow embedding of [mcs.py] and the proofs of its specification.

    Numbers.  Python's [float] quantities (stocks, rates, probabilities) are
    modelled as real numbers, with [math.exp], [math.sin] and [math.radians]
    as the real functions they approximate: the order and balance properties
    below are stated in exact arithmetic.  Where a property speaks of exact
    values of decimal fractions (the crop health counter), the code is
    embedded a second time over IEEE binary64 numbers, which is what Python
    runs; see [Binary64].

    Randomness.  Every call of the [random] module is an input of the
    function that makes it: a property "for every outcome of the random
    draws" quantifies over these inputs.

    Exceptions.  The arithmetic of [mcs.py] can raise [ZeroDivisionError]
    (a division) and [OverflowError] ([math.exp] in the failure
    probability); functions that can raise return a [result].  The
    quotient of the failure probability is the one quantity that can leave
    the binary64 range without an error: it is a [Py.extended] number. *)

From Stdlib Require Import Reals Lra Lia ZArith List String Bool.
From Stdlib Require Import DecimalString Floats.
Import ListNotations.

Set Warnings "-inexact-float".

Open Scope string_scope.
Open Scope R_scope.

(* ================================================================== *)
(** ** The Python runtime the program relies on *)
(* ================================================================== *)

Module Py.

Inductive exn : Type :=
| ZeroDivisionError
| OverflowError.

Inductive result (A : Type) : Type :=
| Ok (a : A)
| Raise (e : exn).

Arguments Ok {A} a.
Arguments Raise {A} e.

Definition bind {A B : Type} (r : result A) (k : A -> result B) : result B :=
  match r with
  | Ok a => k a
  | Raise e => Raise e
  end.

(** [x < y] and [x <= y] on numbers, as booleans. *)
Definition ltb (x y : R) : bool := if Rlt_dec x y then true else false.
Definition leb (x y : R) : bool := if Rle_dec x y then true else false.

(** [max(a, b)] keeps [a] unless [b > a]; [min(a, b)] keeps [a] unless
    [b < a]. *)
Definition max (a b : R) : R := if ltb a b then b else a.
Definition min (a b : R) : R := if ltb b a then b else a.

(** True division [x / y]. *)
Definition div (x y : R) : result R :=
  if Req_dec_T y 0 then Raise ZeroDivisionError else Ok (x / y).

(** A float that may have left the range of the finite binary64 numbers:
    a quotient beyond the largest of them, [float_max], is an infinity, and
    no error. *)
Inductive extended : Type :=
| finite (x : R)
| inf
| neg_inf.

Definition float_max : R :=
  179769313486231570814527423731704356798070567525844996598917476803157260780028538760589558632766878171540458953514382464234321326889464182768467546703537516986049910576551282076245490090389328944075868508455133942304583236903222948165808559332123348274797826204144723168738177180919299881250404026184124858368.

Definition overflow (x : R) : extended :=
  if Rlt_dec float_max x then inf
  else if Rlt_dec x (- float_max) then neg_inf
  else finite x.

(** [math.exp(x)] raises OverflowError when the result of a finite [x] is
    above the largest binary64 number, that is for [x] above
    709.782712893384; [math.exp(inf)] is [inf] and [math.exp(-inf)] is
    0.0. *)
Definition exp_max : R := 709.782712893384.

Definition math_exp (x : extended) : result extended :=
  match x with
  | finite x =>
      if Rlt_dec exp_max x then Raise OverflowError else Ok (finite (exp x))
  | inf => Ok inf
  | neg_inf => Ok (finite 0.0)
  end.

(** [x - y] and [x < y] for a finite [x]. *)
Definition sub_from (x : R) (y : extended) : extended :=
  match y with
  | finite y => finite (x - y)
  | inf => neg_inf
  | neg_inf => inf
  end.

Definition lt_float (x : R) (y : extended) : bool :=
  match y with
  | finite y => ltb x y
  | inf => true
  | neg_inf => false
  end.

(** [math.radians], [math.ceil]. *)
Definition radians (deg : R) : R := deg * (PI / 180).
Definition ceil (x : R) : Z := Zceil x.

(** [f"{i}"] for a loop index. *)
Definition str (i : nat) : string := NilEmpty.string_of_uint (Nat.to_uint i).

End Py.

Import Py.

Notation "x <- c1 ;; c2" := (Py.bind c1 (fun x => c2))
  (at level 61, c1 at next level, right associativity).
Notation "' pat <- c1 ;; c2" := (Py.bind c1 (fun x => match x with pat => c2 end))
  (at level 61, pat pattern, c1 at next level, right associativity).

(* ================================================================== *)
(** ** Configuration and constants *)
(* ================================================================== *)

(** The two module-level constants. *)
Definition mission_duration : nat := 500.
Definition crew_size : R := 6.

Record MCSimConfig : Type := {
  mode : string;
  (* consumption per day *)
  daily_o2_consumption : R;
  daily_water_consumption : R;
  daily_food_consumption : R;
  daily_base_power_consumption : R;
  (* initial resources *)
  starting_o2 : R;
  max_o2_tank : R;
  starting_water : R;
  max_water_tank : R;
  starting_battery : R;
  starting_food : R;
  (* crop settings *)
  crop_daily_water_need : R;
  crop_food_production : R;
  crop_o2_production : R;
  (* oxygenators *)
  num_oxygenators : Z;
  oxygenator_mtbf : R;
  oxygenator_power_cost : R;
  o2_production_rate : R;
  (* water reclaimers *)
  num_water_reclaimers : Z;
  water_reclaimer_mtbf : R;
  water_reclaimer_power_cost : R;
  water_reclamation_rate : R;
  water_recycle_efficiency : R;
  (* power system *)
  solar_capacity : R;
  max_battery : R
}.

(** Attribute assignments [self.x = v] used by the constructor, and
    [cfg.oxygenator_mtbf = v], which a caller can do on the object. *)
Definition set_oxygenators (n : Z) (cost rate : R) (c : MCSimConfig) : MCSimConfig :=
  {| mode := mode c;
     daily_o2_consumption := daily_o2_consumption c;
     daily_water_consumption := daily_water_consumption c;
     daily_food_consumption := daily_food_consumption c;
     daily_base_power_consumption := daily_base_power_consumption c;
     starting_o2 := starting_o2 c;
     max_o2_tank := max_o2_tank c;
     starting_water := starting_water c;
     max_water_tank := max_water_tank c;
     starting_battery := starting_battery c;
     starting_food := starting_food c;
     crop_daily_water_need := crop_daily_water_need c;
     crop_food_production := crop_food_production c;
     crop_o2_production := crop_o2_production c;
     num_oxygenators := n;
     oxygenator_mtbf := oxygenator_mtbf c;
     oxygenator_power_cost := cost;
     o2_production_rate := rate;
     num_water_reclaimers := num_water_reclaimers c;
     water_reclaimer_mtbf := water_reclaimer_mtbf c;
     water_reclaimer_power_cost := water_reclaimer_power_cost c;
     water_reclamation_rate := water_reclamation_rate c;
     water_recycle_efficiency := water_recycle_efficiency c;
     solar_capacity := solar_capacity c;
     max_battery := max_battery c |}.

Definition set_power_system (solar batt : R) (c : MCSimConfig) : MCSimConfig :=
  {| mode := mode c;
     daily_o2_consumption := daily_o2_consumption c;
     daily_water_consumption := daily_water_consumption c;
     daily_food_consumption := daily_food_consumption c;
     daily_base_power_consumption := daily_base_power_consumption c;
     starting_o2 := starting_o2 c;
     max_o2_tank := max_o2_tank c;
     starting_water := starting_water c;
     max_water_tank := max_water_tank c;
     starting_battery := starting_battery c;
     starting_food := starting_food c;
     crop_daily_water_need := crop_daily_water_need c;
     crop_food_production := crop_food_production c;
     crop_o2_production := crop_o2_production c;
     num_oxygenators := num_oxygenators c;
     oxygenator_mtbf := oxygenator_mtbf c;
     oxygenator_power_cost := oxygenator_power_cost c;
     o2_production_rate := o2_production_rate c;
     num_water_reclaimers := num_water_reclaimers c;
     water_reclaimer_mtbf := water_reclaimer_mtbf c;
     water_reclaimer_power_cost := water_reclaimer_power_cost c;
     water_reclamation_rate := water_reclamation_rate c;
     water_recycle_efficiency := water_recycle_efficiency c;
     solar_capacity := solar;
     max_battery := batt |}.

Definition set_oxygenator_mtbf (v : R) (c : MCSimConfig) : MCSimConfig :=
  {| mode := mode c;
     daily_o2_consumption := daily_o2_consumption c;
     daily_water_consumption := daily_water_consumption c;
     daily_food_consumption := daily_food_consumption c;
     daily_base_power_consumption := daily_base_power_consumption c;
     starting_o2 := starting_o2 c;
     max_o2_tank := max_o2_tank c;
     starting_water := starting_water c;
     max_water_tank := max_water_tank c;
     starting_battery := starting_battery c;
     starting_food := starting_food c;
     crop_daily_water_need := crop_daily_water_need c;
     crop_food_production := crop_food_production c;
     crop_o2_production := crop_o2_production c;
     num_oxygenators := num_oxygenators c;
     oxygenator_mtbf := v;
     oxygenator_power_cost := oxygenator_power_cost c;
     o2_production_rate := o2_production_rate c;
     num_water_reclaimers := num_water_reclaimers c;
     water_reclaimer_mtbf := water_reclaimer_mtbf c;
     water_reclaimer_power_cost := water_reclaimer_power_cost c;
     water_reclamation_rate := water_reclamation_rate c;
     water_recycle_efficiency := water_recycle_efficiency c;
     solar_capacity := solar_capacity c;
     max_battery := max_battery c |}.

(** [MCSimConfig.__init__(mode)].  It takes the mode only, assigns literals
    and returns: no branch raises. *)
Definition MCSimConfig_init (mode : string) : result MCSimConfig :=
  let self :=
    {| mode := mode;
       daily_o2_consumption := 0.82;
       daily_water_consumption := 2.5;
       daily_food_consumption := 3035;
       daily_base_power_consumption := 85.0;
       starting_o2 := 8.0;
       max_o2_tank := 50.0;
       starting_water := 1000.0;
       max_water_tank := 2000.0;
       starting_battery := 500.0;
       starting_food := 50000.0;
       crop_daily_water_need := 10.0;
       crop_food_production := 30000.0;
       crop_o2_production := 1.0;
       num_oxygenators := 1;
       oxygenator_mtbf := 120;
       oxygenator_power_cost := 12.0;
       o2_production_rate := 7.5;
       num_water_reclaimers := 1;
       water_reclaimer_mtbf := 120;
       water_reclaimer_power_cost := 3.0;
       water_reclamation_rate := 30.0;
       water_recycle_efficiency := 0.97;
       solar_capacity := 45.0;
       max_battery := 500.0 |} in
  let self :=
    if String.eqb mode "OXYGENATOR_REDUNDANCY_TEST"
    then set_oxygenators 3 4.0 2.5 self
    else self in
  let self :=
    if String.eqb mode "BATTERY_TEST"
    then
      let exchange_ratio := 50.0 in
      let reduce_amount := 10.0 in
      set_power_system (solar_capacity self - reduce_amount)
                       (max_battery self + reduce_amount * exchange_ratio) self
    else self in
  Ok self.

(* ================================================================== *)
(** ** Machine *)
(* ================================================================== *)

Record Machine : Type := {
  name : string;
  production_rate : R;
  mtbf : R;
  is_broken : bool;
  days_to_repair : Z
}.

Definition Machine_init (name : string) (production_rate mtbf_days : R) : Machine :=
  {| name := name;
     production_rate := production_rate;
     mtbf := mtbf_days;
     is_broken := false;
     days_to_repair := 0 |}.

Definition set_repair (broken : bool) (days : Z) (self : Machine) : Machine :=
  {| name := name self;
     production_rate := production_rate self;
     mtbf := mtbf self;
     is_broken := broken;
     days_to_repair := days |}.

(** The draws of one [daily_check]: [random.random()] and the normal variate
    inside [random.lognormvariate(1.0, 0.8)], which returns its exponential. *)
Record MachineDraw : Type := {
  failure_u : R;
  repair_normal : R
}.

Definition lognormvariate (rng : MachineDraw) : R := exp (repair_normal rng).

(** [fail_prob = 1 - math.exp(-1 / self.mtbf)]: the division raises for a
    zero MTBF and gives an infinity for an MTBF so close to zero that the
    quotient leaves the binary64 range; [math.exp] raises for a finite
    quotient above 709.78, that is for an MTBF between about -0.0014 and
    that range.  A finite value is that of the real exponential; the code
    rounds it, to exactly 1.0 or 0.0 at extreme MTBF, and stays within
    [0, 1] for a positive MTBF. *)
Definition fail_prob (self : Machine) : result Py.extended :=
  q <- Py.div (-1) (mtbf self) ;;
  e <- Py.math_exp (Py.overflow q) ;;
  Ok (Py.sub_from 1 e).

(** [random.random() < fail_prob]: the failure draw fires. *)
Definition failure_fires (self : Machine) (rng : MachineDraw) : result bool :=
  p <- fail_prob self ;;
  Ok (Py.lt_float (failure_u rng) p).

(** [Machine.daily_check]: the production of the day and the machine after
    the call. *)
Definition daily_check (self : Machine) (rng : MachineDraw) : result (R * Machine) :=
  if is_broken self then
    let self := set_repair (is_broken self) (days_to_repair self - 1) self in
    let self :=
      if (days_to_repair self <=? 0)%Z then set_repair false 0 self else self in
    Ok (0.0, self)
  else
    fires <- failure_fires self rng ;;
    if fires : bool then
      let repair_time := lognormvariate rng in
      Ok (0.0, set_repair true (Py.ceil repair_time) self)
    else
      Ok (production_rate self, self).

(** Successive calls of [daily_check] on one machine, one draw per call:
    the productions in order and the machine after the last call. *)
Fixpoint daily_checks (self : Machine) (rngs : list MachineDraw)
  : result (list R * Machine) :=
  match rngs with
  | [] => Ok ([], self)
  | rng :: rest =>
      '(p, self') <- daily_check self rng ;;
      '(ps, self'') <- daily_checks self' rest ;;
      Ok (p :: ps, self'')
  end.

(** The invariant of the data model: a working machine has no repair days
    left. *)
Definition machine_inv (m : Machine) : Prop :=
  is_broken m = false -> days_to_repair m = 0%Z.

(* ================================================================== *)
(** ** CropModule *)
(* ================================================================== *)

Record CropModule : Type := {
  base_food : R;
  base_o2 : R;
  health : R
}.

Definition CropModule_init (base_food base_o2 : R) : CropModule :=
  {| base_food := base_food; base_o2 := base_o2; health := 1.0 |}.

Definition set_health (h : R) (self : CropModule) : CropModule :=
  {| base_food := base_food self; base_o2 := base_o2 self; health := h |}.

(** [CropModule.grow]; [gauss] is the outcome of [random.gauss(1.0, 0.1)]. *)
Definition grow (self : CropModule) (has_water : bool) (gauss : R)
  : (R * R) * CropModule :=
  let self :=
    if negb has_water
    then set_health (health self - 0.2) self
    else set_health (health self + 0.1) self in
  let self := set_health (Py.max 0.0 (Py.min 1.0 (health self))) self in
  if Py.leb (health self) 0.0 then
    let self := set_health 0.0 self in
    ((0.0, 0.0), self)
  else
    let bio_factor := Py.max 0.8 (Py.min 1.2 gauss) in
    let actual_food := base_food self * bio_factor * health self in
    let actual_o2 := base_o2 self * bio_factor * health self in
    ((Py.max 0 actual_food, Py.max 0 actual_o2), self).

(* ================================================================== *)
(** ** MarsEnvironment *)
(* ================================================================== *)

Record MarsEnvironment : Type := {
  is_storming : bool;
  storm_counter : Z
}.

Definition MarsEnvironment_init : MarsEnvironment :=
  {| is_storming := false; storm_counter := 0 |}.

(** The draws of one call: [random.random()] for the trigger and
    [random.randint(5, 15)] for the length of the storm. *)
Record StormDraw : Type := {
  trigger_u : R;
  storm_days : Z
}.

(** [MarsEnvironment.get_sunlight_efficiency]: the efficiency and the
    environment after the call.  [math.sin] and [math.exp] are the real
    functions, which the code follows up to rounding; [math.exp] is applied
    to an argument of at most -0.3 and cannot overflow. *)
Definition get_sunlight_efficiency
    (self : MarsEnvironment) (Ls_degrees : R) (rng : StormDraw)
  : R * MarsEnvironment :=
  let ls_rad := Py.radians Ls_degrees in
  let tau_base := 0.65 - 0.35 * sin ls_rad in
  let '(storm_opacity, self) :=
    if is_storming self then
      let self :=
        {| is_storming := is_storming self;
           storm_counter := storm_counter self - 1 |} in
      let storm_opacity := 4.0 in
      let self :=
        if (storm_counter self <=? 0)%Z
        then {| is_storming := false; storm_counter := storm_counter self |}
        else self in
      (storm_opacity, self)
    else
      let storm_opacity := 0.0 in
      let self :=
        if Py.ltb 200 Ls_degrees && Py.ltb Ls_degrees 300 then
          if Py.ltb (trigger_u rng) 0.005
          then {| is_storming := true; storm_counter := storm_days rng |}
          else self
        else self in
      (storm_opacity, self) in
  let total_tau := tau_base + storm_opacity in
  let efficiency := exp (- total_tau) in
  (Py.max 0.02 efficiency, self).

(* ================================================================== *)
(** ** MarsColony *)
(* ================================================================== *)

Record MarsColony : Type := {
  cfg : MCSimConfig;
  day : Z;
  alive : bool;
  cause_of_death : string;
  o2 : R;
  water : R;
  waste_water : R;
  battery : R;
  food : R;
  env : MarsEnvironment;
  crops : CropModule;
  oxygenators : list Machine;
  water_reclaimers : list Machine
}.

(** [range(n)]: empty when [n <= 0]. *)
Definition range (n : Z) : list nat := seq 0 (Z.to_nat n).

Definition MarsColony_init (config : MCSimConfig) : MarsColony :=
  {| cfg := config;
     day := 0;
     alive := true;
     cause_of_death := "";
     o2 := starting_o2 config;
     water := starting_water config;
     waste_water := 0.0;
     battery := starting_battery config;
     food := starting_food config;
     env := MarsEnvironment_init;
     crops := CropModule_init (crop_food_production config)
                              (crop_o2_production config);
     oxygenators :=
       map (fun i => Machine_init ("Oxy-" ++ Py.str i)
                                  (o2_production_rate config)
                                  (oxygenator_mtbf config))
           (range (num_oxygenators config));
     water_reclaimers :=
       map (fun i => Machine_init ("WaterRec-" ++ Py.str i)
                                  (water_reclamation_rate config)
                                  (water_reclaimer_mtbf config))
           (range (num_water_reclaimers config)) |}.

(** The local variables of [step] that the two machine loops update,
    [self.waste_water] included. *)
Record Locals : Type := {
  available_power : R;
  total_power_need : R;
  o2_produced : R;
  water_reclaimed : R;
  waste : R
}.

(** [available_power -= machine_power; total_power_need += machine_power] *)
Definition charge (machine_power : R) (l : Locals) : Locals :=
  {| available_power := available_power l - machine_power;
     total_power_need := total_power_need l + machine_power;
     o2_produced := o2_produced l;
     water_reclaimed := water_reclaimed l;
     waste := waste l |}.

Definition add_o2 (p : R) (l : Locals) : Locals :=
  {| available_power := available_power l;
     total_power_need := total_power_need l;
     o2_produced := o2_produced l + p;
     water_reclaimed := water_reclaimed l;
     waste := waste l |}.

Definition reclaim (actual_processed : R) (l : Locals) : Locals :=
  {| available_power := available_power l;
     total_power_need := total_power_need l;
     o2_produced := o2_produced l;
     water_reclaimed := water_reclaimed l + actual_processed;
     waste := waste l - actual_processed |}.

(** [for m in machines: body], the [i]-th machine drawing from [rngs i]. *)
Fixpoint for_each
    (body : Machine -> MachineDraw -> Locals -> result (Machine * Locals))
    (machines : list Machine) (rngs : nat -> MachineDraw) (l : Locals)
  : result (list Machine * Locals) :=
  match machines with
  | [] => Ok ([], l)
  | m :: rest =>
      '(m', l') <- body m (rngs 0%nat) l ;;
      '(rest', l'') <- for_each body rest (fun i => rngs (S i)) l' ;;
      Ok (m' :: rest', l'')
  end.

(** Body of the oxygenator loop; [o2_now] is [self.o2]. *)
Definition oxygenator_body (cfg : MCSimConfig) (o2_now : R)
    (oxy : Machine) (rng : MachineDraw) (l : Locals)
  : result (Machine * Locals) :=
  let machine_power := oxygenator_power_cost cfg in
  let needs_o2 := Py.ltb o2_now (max_o2_tank cfg) in
  if Py.leb machine_power (available_power l) && needs_o2 then
    '(p, oxy') <- daily_check oxy rng ;;
    Ok (oxy', charge machine_power (add_o2 p l))
  else
    Ok (oxy, l).

(** Body of the water reclaimer loop; [water_now] is [self.water]. *)
Definition reclaimer_body (cfg : MCSimConfig) (water_now : R)
    (water_rec : Machine) (rng : MachineDraw) (l : Locals)
  : result (Machine * Locals) :=
  let machine_power := water_reclaimer_power_cost cfg in
  let needs_water := Py.ltb water_now (max_water_tank cfg) in
  if Py.leb machine_power (available_power l) && needs_water then
    '(p, water_rec') <- daily_check water_rec rng ;;
    let actual_processed := Py.min p (waste l) in
    Ok (water_rec', charge machine_power (reclaim actual_processed l))
  else
    Ok (water_rec, l).

(** The survival check at the end of [step]: the cause it records, if
    any. *)
Definition survival_check (battery o2 water food : R) : option string :=
  if Py.ltb battery 0 then Some "Power Failure"
  else if Py.ltb o2 0 then Some "Suffocation"
  else if Py.ltb water 0 then Some "Dehydration"
  else if Py.ltb food 0 then Some "Starvation"
  else None.

(** [if x > cap: x = cap] *)
Definition cap_at (cap x : R) : R := if Py.ltb cap x then cap else x.

(** The draws of one day. *)
Record DayDraws : Type := {
  storm_draw : StormDraw;
  crop_gauss : R;
  oxygenator_draws : nat -> MachineDraw;
  reclaimer_draws : nat -> MachineDraw
}.

(** What [step] computed on the way: its local variables at the points the
    specification speaks of. *)
Record DayTrace : Type := {
  power_gen : R;
  before_machines : Locals;
  after_oxygenators : Locals;
  after_reclaimers : Locals;
  battery_before_cap : R;
  death : option string
}.

(** [MarsColony.step], with its trace.  [crew] is the value of the global
    [crew_size] at the time of the call. *)
Definition step_trace (crew : R) (self : MarsColony) (rng : DayDraws)
  : result (MarsColony * DayTrace) :=
  let config := cfg self in
  let day' := (day self + 1)%Z in
  (* 1. environment and power generation *)
  let '(sun_eff, env') :=
    get_sunlight_efficiency (env self) (IZR (day' mod 360)) (storm_draw rng) in
  let power_gen := solar_capacity config * sun_eff * 8 in
  (* 2. base consumption; [base_power_need] and [power_left] are the first
     values of [total_power_need] and [available_power] *)
  let base_power_need := daily_base_power_consumption config in
  let power_left := battery self + power_gen - base_power_need in
  let total_o2_need := daily_o2_consumption config * crew in
  let total_water_need := daily_water_consumption config * crew in
  let total_food_need := daily_food_consumption config * crew in
  (* 3. crop production *)
  let crop_water_available :=
    Py.leb (total_water_need + crop_daily_water_need config) (water self) in
  let total_water_need :=
    if crop_water_available
    then total_water_need + crop_daily_water_need config
    else total_water_need in
  let '((food_produced, crop_o2_produced), crops') :=
    grow (crops self) crop_water_available (crop_gauss rng) in
  (* 4. waste water *)
  let waste_water' :=
    waste_water self + total_water_need * water_recycle_efficiency config in
  (* 5. machine operation *)
  let l0 :=
    {| available_power := power_left;
       total_power_need := base_power_need;
       o2_produced := 0;
       water_reclaimed := 0;
       waste := waste_water' |} in
  '(oxygenators', l1) <-
    for_each (oxygenator_body config (o2 self))
             (oxygenators self) (oxygenator_draws rng) l0 ;;
  '(water_reclaimers', l2) <-
    for_each (reclaimer_body config (water self))
             (water_reclaimers self) (reclaimer_draws rng) l1 ;;
  (* 6. update resources *)
  let battery_sum := battery self + (power_gen - total_power_need l2) in
  let battery' := cap_at (max_battery config) battery_sum in
  let o2' :=
    cap_at (max_o2_tank config)
           (o2 self + (o2_produced l2 + crop_o2_produced - total_o2_need)) in
  let water' :=
    cap_at (max_water_tank config)
           (water self + (water_reclaimed l2 - total_water_need)) in
  let food' := food self + (food_produced - total_food_need) in
  (* 7. survival conditions *)
  let verdict := survival_check battery' o2' water' food' in
  Ok ({| cfg := config;
         day := day';
         alive := match verdict with Some _ => false | None => alive self end;
         cause_of_death :=
           match verdict with
           | Some cause => cause
           | None => cause_of_death self
           end;
         o2 := o2';
         water := water';
         waste_water := waste l2;
         battery := battery';
         food := food';
         env := env';
         crops := crops';
         oxygenators := oxygenators';
         water_reclaimers := water_reclaimers' |},
      {| power_gen := power_gen;
         before_machines := l0;
         after_oxygenators := l1;
         after_reclaimers := l2;
         battery_before_cap := battery_sum;
         death := verdict |}).

Definition step (crew : R) (self : MarsColony) (rng : DayDraws)
  : result MarsColony :=
  '(self', _) <- step_trace crew self rng ;;
  Ok self'.

(** One entry of the history of [run_mission]. *)
Record Snapshot : Type := {
  snap_day : Z;
  snap_o2 : R;
  snap_water : R;
  snap_waste_water : R;
  snap_food : R;
  snap_crop_health : R;
  snap_battery : R;
  snap_storm : bool
}.

Definition snapshot (self : MarsColony) : Snapshot :=
  {| snap_day := day self;
     snap_o2 := o2 self;
     snap_water := water self;
     snap_waste_water := waste_water self;
     snap_food := food self;
     snap_crop_health := health (crops self);
     snap_battery := battery self;
     snap_storm := is_storming (env self) |}.

(** The loop of [run_mission]: at most [n] more days, day [i] drawing from
    [rngs i]. *)
Fixpoint mission_loop (crew : R) (n : nat) (self : MarsColony)
    (rngs : nat -> DayDraws) (history : list Snapshot)
  : result (MarsColony * list Snapshot) :=
  match n with
  | O => Ok (self, history)
  | S n' =>
      if negb (alive self) then Ok (self, history)
      else
        self' <- step crew self (rngs 0%nat) ;;
        mission_loop crew n' self' (fun i => rngs (S i))
                     (history ++ [snapshot self'])
  end.

(** [MarsColony.run_mission]: the colony after the run and the returned
    triple. *)
Definition run_mission (crew : R) (self : MarsColony) (rngs : nat -> DayDraws)
  : result (MarsColony * (bool * string * list Snapshot)) :=
  '(self', history) <- mission_loop crew mission_duration self rngs [] ;;
  Ok (self', (alive self', cause_of_death self', history)).

(* ================================================================== *)
(** ** Monte Carlo simulation *)
(* ================================================================== *)

(** [death_reasons], a dict from cause to count, in insertion order. *)
Definition dict : Type := list (string * Z).

Fixpoint dict_get (d : dict) (k : string) (default : Z) : Z :=
  match d with
  | [] => default
  | (k', v) :: rest => if String.eqb k k' then v else dict_get rest k default
  end.

Fixpoint dict_set (d : dict) (k : string) (v : Z) : dict :=
  match d with
  | [] => [(k, v)]
  | (k', v') :: rest =>
      if String.eqb k k' then (k', v) :: rest else (k', v') :: dict_set rest k v
  end.

(** The trial loop of [run_mcs]: [n] more trials, trial [i] drawing from
    [rngs i]. *)
Fixpoint trials (crew : R) (config : MCSimConfig) (n : nat)
    (rngs : nat -> nat -> DayDraws) (success_count : Z) (death_reasons : dict)
  : result (Z * dict) :=
  match n with
  | O => Ok (success_count, death_reasons)
  | S n' =>
      let colony := MarsColony_init config in
      '(_, (survived, cause, _)) <- run_mission crew colony (rngs 0%nat) ;;
      if survived : bool then
        trials crew config n' (fun i => rngs (S i))
               (success_count + 1)%Z death_reasons
      else
        trials crew config n' (fun i => rngs (S i)) success_count
               (dict_set death_reasons cause
                         (dict_get death_reasons cause 0 + 1)%Z)
  end.

(** [run_mcs(experiment_mode, n_simulations)]; the [print] calls are not
    modelled. *)
Definition run_mcs (crew : R) (experiment_mode : string) (n_simulations : Z)
    (rngs : nat -> nat -> DayDraws) : result R :=
  let success_count := 0%Z in
  let death_reasons : dict := [] in
  config <- MCSimConfig_init experiment_mode ;;
  '(success_count, death_reasons) <-
    trials crew config (Z.to_nat n_simulations) rngs
           success_count death_reasons ;;
  q <- Py.div (IZR success_count) (IZR n_simulations) ;;
  let success_rate := q * 100 in
  Ok success_rate.

(* ================================================================== *)
(** ** CropModule over binary64 *)
(* ================================================================== *)

(** [CropModule] again, on the numbers Python computes with: IEEE binary64
    with round-to-nearest-even, every decimal literal rounded to the
    nearest binary64 number. *)
Module Binary64.

Local Open Scope float_scope.

Definition max (a b : float) : float := if a <? b then b else a.
Definition min (a b : float) : float := if b <? a then b else a.

Record CropModule : Type := {
  base_food : float;
  base_o2 : float;
  health : float
}.

Definition CropModule_init (base_food base_o2 : float) : CropModule :=
  {| base_food := base_food; base_o2 := base_o2; health := 1.0 |}.

Definition set_health (h : float) (self : CropModule) : CropModule :=
  {| base_food := base_food self; base_o2 := base_o2 self; health := h |}.

Definition grow (self : CropModule) (has_water : bool) (gauss : float)
  : (float * float) * CropModule :=
  let self :=
    if negb has_water
    then set_health (health self - 0.2) self
    else set_health (health self + 0.1) self in
  let self := set_health (max 0.0 (min 1.0 (health self))) self in
  if health self <=? 0.0 then
    let self := set_health 0.0 self in
    ((0.0, 0.0), self)
  else
    let bio_factor := max 0.8 (min 1.2 gauss) in
    let actual_food := base_food self * bio_factor * health self in
    let actual_o2 := base_o2 self * bio_factor * health self in
    ((max 0 actual_food, max 0 actual_o2), self).

(** Successive calls of [grow], one pair (has_water, gauss draw) per call:
    the yields in order and the module after the last call. *)
Fixpoint grows (self : CropModule) (days : list (bool * float))
  : list (float * float) * CropModule :=
  match days with
  | [] => ([], self)
  | (has_water, gauss) :: rest =>
      let '(y, self') := grow self has_water gauss in
      let '(ys, self'') := grows self' rest in
      (y :: ys, self'')
  end.

End Binary64.

(** Successive calls of [grow] in exact arithmetic. *)
Fixpoint grows (self : CropModule) (days : list (bool * R))
  : list (R * R) * CropModule :=
  match days with
  | [] => ([], self)
  | (has_water, gauss) :: rest =>
      let '(y, self') := grow self has_water gauss in
      let '(ys, self'') := grows self' rest in
      (y :: ys, self'')
  end.

(* ================================================================== *)
(** ** Predicates of the specification *)
(* ================================================================== *)

(** The invariant of the configuration in the data model: rates and
    capacities are non-negative. *)
Record nonneg_config (c : MCSimConfig) : Prop := {
  nn_o2_consumption : 0 <= daily_o2_consumption c;
  nn_water_consumption : 0 <= daily_water_consumption c;
  nn_food_consumption : 0 <= daily_food_consumption c;
  nn_base_power : 0 <= daily_base_power_consumption c;
  nn_starting_o2 : 0 <= starting_o2 c;
  nn_max_o2 : 0 <= max_o2_tank c;
  nn_starting_water : 0 <= starting_water c;
  nn_max_water : 0 <= max_water_tank c;
  nn_starting_battery : 0 <= starting_battery c;
  nn_starting_food : 0 <= starting_food c;
  nn_crop_water : 0 <= crop_daily_water_need c;
  nn_crop_food : 0 <= crop_food_production c;
  nn_crop_o2 : 0 <= crop_o2_production c;
  nn_num_oxygenators : (0 <= num_oxygenators c)%Z;
  nn_oxygenator_cost : 0 <= oxygenator_power_cost c;
  nn_o2_rate : 0 <= o2_production_rate c;
  nn_num_reclaimers : (0 <= num_water_reclaimers c)%Z;
  nn_reclaimer_cost : 0 <= water_reclaimer_power_cost c;
  nn_reclamation_rate : 0 <= water_reclamation_rate c;
  nn_recycle_efficiency : 0 <= water_recycle_efficiency c;
  nn_solar : 0 <= solar_capacity c;
  nn_max_battery : 0 <= max_battery c
}.

(** A valid configuration has, moreover, positive mean times between
    failures. *)
Definition valid_config (c : MCSimConfig) : Prop :=
  nonneg_config c /\ 0 < oxygenator_mtbf c /\ 0 < water_reclaimer_mtbf c.

(** The colony states that calls of [step] reach from a fresh colony. *)
Inductive reachable (crew : R) (config : MCSimConfig) : MarsColony -> Prop :=
| reach_init : reachable crew config (MarsColony_init config)
| reach_step self rng self' :
    reachable crew config self ->
    step crew self rng = Ok self' ->
    reachable crew config self'.

(** Every machine of the colony can evaluate its failure probability. *)
Definition machines_ok (self : MarsColony) : Prop :=
  Forall (fun m => 0 < mtbf m) (oxygenators self) /\
  Forall (fun m => 0 < mtbf m) (water_reclaimers self).

(** Draws of a mission without crew in which a storm of 15 days is
    triggered on day 201 (index 200) and on no other day. *)
Definition quiet_machine : MachineDraw :=
  {| failure_u := 0.5; repair_normal := 1.0 |}.

Definition storm_on_day_201 (i : nat) : DayDraws :=
  {| storm_draw :=
       if Nat.eqb i 200
       then {| trigger_u := 0.001; storm_days := 15 |}
       else {| trigger_u := 0.5; storm_days := 5 |};
     crop_gauss := 1.0;
     oxygenator_draws := fun _ => quiet_machine;
     reclaimer_draws := fun _ => quiet_machine |}.

(** The object that [MCSimConfig("CONTROL")] builds. *)
Definition control_config : MCSimConfig :=
  {| mode := "CONTROL";
     daily_o2_consumption := 0.82;
     daily_water_consumption := 2.5;
     daily_food_consumption := 3035;
     daily_base_power_consumption := 85.0;
     starting_o2 := 8.0;
     max_o2_tank := 50.0;
     starting_water := 1000.0;
     max_water_tank := 2000.0;
     starting_battery := 500.0;
     starting_food := 50000.0;
     crop_daily_water_need := 10.0;
     crop_food_production := 30000.0;
     crop_o2_production := 1.0;
     num_oxygenators := 1;
     oxygenator_mtbf := 120;
     oxygenator_power_cost := 12.0;
     o2_production_rate := 7.5;
     num_water_reclaimers := 1;
     water_reclaimer_mtbf := 120;
     water_reclaimer_power_cost := 3.0;
     water_reclamation_rate := 30.0;
     water_recycle_efficiency := 0.97;
     solar_capacity := 45.0;
     max_battery := 500.0 |}.

(** The values [step] computes before its loops, as functions of the
    colony it is called on. *)
Definition sun_eff_of (self : MarsColony) (rng : DayDraws) : R :=
  fst (get_sunlight_efficiency (env self) (IZR ((day self + 1) mod 360))
                               (storm_draw rng)).

Definition power_gen_of (self : MarsColony) (rng : DayDraws) : R :=
  solar_capacity (cfg self) * sun_eff_of self rng * 8.

Definition crop_watered (crew : R) (self : MarsColony) : bool :=
  Py.leb (daily_water_consumption (cfg self) * crew
          + crop_daily_water_need (cfg self)) (water self).

Definition water_need_of (crew : R) (self : MarsColony) : R :=
  if crop_watered crew self
  then daily_water_consumption (cfg self) * crew + crop_daily_water_need (cfg self)
  else daily_water_consumption (cfg self) * crew.

Definition crop_yields_of (crew : R) (self : MarsColony) (rng : DayDraws) : R * R :=
  fst (grow (crops self) (crop_watered crew self) (crop_gauss rng)).

Definition locals_of (crew : R) (self : MarsColony) (rng : DayDraws) : Locals :=
  {| available_power :=
       battery self + power_gen_of self rng
       - daily_base_power_consumption (cfg self);
     total_power_need := daily_base_power_consumption (cfg self);
     o2_produced := 0;
     water_reclaimed := 0;
     waste :=
       waste_water self
       + water_need_of crew self * water_recycle_efficiency (cfg self) |}.

(** The machines of a loop of [step] that run, in order: a machine runs
    when the power left after the machines that ran before it covers its
    cost and the tank is not full ([needs]); [power] is the power available
    before the loop, [n] the number of machines. *)
Fixpoint dispatch (machine_power : R) (needs : bool) (power : R) (n : nat)
  : list bool :=
  match n with
  | O => []
  | S k =>
      if Py.leb machine_power power && needs
      then true :: dispatch machine_power needs (power - machine_power) k
      else false :: dispatch machine_power needs power k
  end.

(** Number of machines that ran. *)
Fixpoint ran_count (ran : list bool) : nat :=
  match ran with
  | [] => O
  | true :: rest => S (ran_count rest)
  | false :: rest => ran_count rest
  end.

(** [machines'] are the [machines] after a loop in which exactly the
    machines flagged in [ran] had their [daily_check] called, machine [i]
    with the draws [rngs i]; the others are untouched. *)
Fixpoint checked (machines : list Machine) (rngs : nat -> MachineDraw)
    (ran : list bool) (machines' : list Machine) : Prop :=
  match machines, ran, machines' with
  | [], [], [] => True
  | m :: ms, r :: rs, m' :: ms' =>
      (if r : bool
       then exists p, daily_check m (rngs 0%nat) = Ok (p, m')
       else m' = m) /\
      checked ms (fun i => rngs (S i)) rs ms'
  | _, _, _ => False
  end.


(** The colony is either alive with no cause recorded, or dead of a power
    failure. *)
Definition alive_or_power_failure (self : MarsColony) : Prop :=
  (alive self = true /\ cause_of_death self = "") \/
  (alive self = false /\ cause_of_death self = "Power Failure").

(** What a colony without crew keeps from day to day: oxygen, water, food
    and waste water are non-negative, its machines have non-negative rates,
    and nothing but a power failure has been recorded. *)
Record crewless_inv (config : MCSimConfig) (self : MarsColony) : Prop := {
  ci_cfg : cfg self = config;
  ci_o2 : 0 <= o2 self;
  ci_water : 0 <= water self;
  ci_food : 0 <= food self;
  ci_waste : 0 <= waste_water self;
  ci_oxygenators : Forall (fun m => 0 <= production_rate m) (oxygenators self);
  ci_reclaimers : Forall (fun m => 0 <= production_rate m) (water_reclaimers self);
  ci_death : alive_or_power_failure self
}.

(** The course of the mission drawn by [storm_on_day_201], after [i] days,
    while the colony is alive: calm up to day 200, then the storm, whose
    days each cost at least 77.8 kWh of battery; day 208 is not survived. *)
Definition storm_inv (i : nat) (self : MarsColony) : Prop :=
  crewless_inv control_config self /\
  day self = Z.of_nat i /\
  (alive self = true ->
   0 <= battery self <= 500 /\
   ((i <= 200)%nat -> is_storming (env self) = false) /\
   ((201 <= i)%nat ->
    is_storming (env self) = true /\
    storm_counter (env self) = (216 - Z.of_nat i)%Z /\
    battery self <= 500 - 77.8 * INR (i - 201)) /\
   (i < 208)%nat).

(** Successive calls of [get_sunlight_efficiency] on one environment, one
    pair (season angle, draws) per call: the efficiencies in order and the
    environment after the last call. *)
Fixpoint sunlight_calls (self : MarsEnvironment) (calls : list (R * StormDraw))
  : list R * MarsEnvironment :=
  match calls with
  | [] => ([], self)
  | (Ls_degrees, rng) :: rest =>
      let '(e, self') := get_sunlight_efficiency self Ls_degrees rng in
      let '(es, self'') := sunlight_calls self' rest in
      (e :: es, self'')
  end.

(** The invariant of the environment: a storm has days left, calm weather
    has none. *)
Definition env_inv (e : MarsEnvironment) : Prop :=
  if is_storming e then (1 <= storm_counter e)%Z else storm_counter e = 0%Z.

(** The four causes of death that [step] records. *)
Definition causes : list string :=
  ["Power Failure"; "Suffocation"; "Dehydration"; "Starvation"].

(** Alive with no cause recorded, or dead of one of the four causes. *)
Definition cause_inv (self : MarsColony) : Prop :=
  (alive self = true /\ cause_of_death self = "") \/
  (alive self = false /\ In (cause_of_death self) causes).

(** Two machines that differ at most in their repair state. *)
Definition same_machine (m m' : Machine) : Prop :=
  name m' = name m /\ production_rate m' = production_rate m /\ mtbf m' = mtbf m.

(** Sum of the counts of a dict, and its keys. *)
Definition dict_total (d : dict) : Z := fold_right (fun kv acc => (snd kv + acc)%Z) 0%Z d.

Definition dict_keys (d : dict) : list string := map fst d.

(** [self.mode = v] *)
Definition set_mode (v : string) (c : MCSimConfig) : MCSimConfig :=
  {| mode := v;
     daily_o2_consumption := daily_o2_consumption c;
     daily_water_consumption := daily_water_consumption c;
     daily_food_consumption := daily_food_consumption c;
     daily_base_power_consumption := daily_base_power_consumption c;
     starting_o2 := starting_o2 c;
     max_o2_tank := max_o2_tank c;
     starting_water := starting_water c;
     max_water_tank := max_water_tank c;
     starting_battery := starting_battery c;
     starting_food := starting_food c;
     crop_daily_water_need := crop_daily_water_need c;
     crop_food_production := crop_food_production c;
     crop_o2_production := crop_o2_production c;
     num_oxygenators := num_oxygenators c;
     oxygenator_mtbf := oxygenator_mtbf c;
     oxygenator_power_cost := oxygenator_power_cost c;
     o2_production_rate := o2_production_rate c;
     num_water_reclaimers := num_water_reclaimers c;
     water_reclaimer_mtbf := water_reclaimer_mtbf c;
     water_reclaimer_power_cost := water_reclaimer_power_cost c;
     water_reclamation_rate := water_reclamation_rate c;
     water_recycle_efficiency := water_recycle_efficiency c;
     solar_capacity := solar_capacity c;
     max_battery := max_battery c |}.

(** A colony in mode CONTROL whose oxygen and water tanks are full, with a
    broken oxygenator and a broken reclaimer. *)
Definition full_tanks_colony : MarsColony :=
  {| cfg := control_config;
     day := 10;
     alive := true;
     cause_of_death := "";
     o2 := 50.0;
     water := 2000.0;
     waste_water := 40.0;
     battery := 500.0;
     food := 50000.0;
     env := MarsEnvironment_init;
     crops := CropModule_init 30000.0 1.0;
     oxygenators := [set_repair true 2 (Machine_init "Oxy-0" 7.5 120)];
     water_reclaimers := [set_repair true 3 (Machine_init "WaterRec-0" 30.0 120)] |}.

(** A histogram of causes as [run_mcs] builds it: every key is one of the
    four causes, every count is positive, no key occurs twice. *)
Definition dict_ok (d : dict) : Prop :=
  Forall (fun kv => In (fst kv) causes /\ (0 < snd kv)%Z) d /\
  NoDup (dict_keys d).

(** A colony in mode CONTROL in the middle of a storm. *)
Definition storm_colony : MarsColony :=
  {| cfg := control_config;
     day := 203;
     alive := true;
     cause_of_death := "";
     o2 := 50.0;
     water := 940.0;
     waste_water := 0.0;
     battery := 338.4;
     food := 50000.0;
     env := {| is_storming := true; storm_counter := 13 |};
     crops := CropModule_init 30000.0 1.0;
     oxygenators := [Machine_init "Oxy-0" 7.5 120];
     water_reclaimers := [Machine_init "WaterRec-0" 30.0 120] |}.

(** The four stocks that the survival check reads are non-negative. *)
Definition supplied (self : MarsColony) : Prop :=
  0 <= battery self /\ 0 <= o2 self /\ 0 <= water self /\ 0 <= food self.

(** The recorded cause names the first negative stock, in the order
    battery, oxygen, water, food. *)
Definition died_of (self : MarsColony) : Prop :=
  (cause_of_death self = "Power Failure" /\ battery self < 0) \/
  (cause_of_death self = "Suffocation" /\ 0 <= battery self /\ o2 self < 0) \/
  (cause_of_death self = "Dehydration" /\
   0 <= battery self /\ 0 <= o2 self /\ water self < 0) \/
  (cause_of_death self = "Starvation" /\
   0 <= battery self /\ 0 <= o2 self /\ 0 <= water self /\ food self < 0).

(** The state of a mission started on a fresh colony, after [i] days. *)
Definition mission_inv (i : nat) (self : MarsColony) : Prop :=
  day self = Z.of_nat i /\
  ((alive self = true /\ cause_of_death self = "" /\
    ((1 <= i)%nat -> supplied self)) \/
   (alive self = false /\ died_of self /\ (1 <= i)%nat)).

(* ================================================================== *)
(** ** Comparisons and basic facts *)
(* ================================================================== *)

Lemma ltb_true x y : Py.ltb x y = true <-> x < y.
Proof. unfold Py.ltb. destruct (Rlt_dec x y); split; intros; try lra; discriminate. Qed.

Lemma ltb_false x y : Py.ltb x y = false <-> y <= x.
Proof. unfold Py.ltb. destruct (Rlt_dec x y); split; intros; try lra; discriminate. Qed.

Lemma leb_true x y : Py.leb x y = true <-> x <= y.
Proof. unfold Py.leb. destruct (Rle_dec x y); split; intros; try lra; discriminate. Qed.

Lemma leb_false x y : Py.leb x y = false <-> y < x.
Proof. unfold Py.leb. destruct (Rle_dec x y); split; intros; try lra; discriminate. Qed.

(** Decide every comparison of numbers in the goal and the context. *)
Ltac py_cases :=
  unfold cap_at, Py.max, Py.min, Py.ltb, Py.leb in *;
  repeat match goal with
    | |- context [Rlt_dec ?a ?b] => destruct (Rlt_dec a b)
    | |- context [Rle_dec ?a ?b] => destruct (Rle_dec a b)
    | H : context [Rlt_dec ?a ?b] |- _ => destruct (Rlt_dec a b)
    | H : context [Rle_dec ?a ?b] |- _ => destruct (Rle_dec a b)
    end.

Lemma max_lower a b : a <= Py.max a b.
Proof. py_cases; lra. Qed.

Lemma max_upper a b c : a <= c -> b <= c -> Py.max a b <= c.
Proof. intros; py_cases; lra. Qed.

Lemma min_le_r a b : Py.min a b <= b.
Proof. py_cases; lra. Qed.

Lemma cap_at_le cap x : cap_at cap x <= cap.
Proof. py_cases; lra. Qed.

Lemma cap_at_le_x cap x : cap_at cap x <= x.
Proof. py_cases; lra. Qed.

Lemma cap_at_nonneg cap x : 0 <= cap -> 0 <= x -> 0 <= cap_at cap x.
Proof. intros; py_cases; lra. Qed.

Lemma div_ok x y : y <> 0 -> Py.div x y = Ok (x / y).
Proof. intros H. unfold Py.div. destruct (Req_dec_T y 0); [contradiction | reflexivity]. Qed.

Lemma div_zero x : Py.div x 0 = Raise ZeroDivisionError.
Proof. unfold Py.div. destruct (Req_dec_T 0 0); [reflexivity | contradiction]. Qed.

Lemma math_exp_ok x :
  x <= Py.exp_max -> Py.math_exp (Py.finite x) = Ok (Py.finite (exp x)).
Proof. intros H. unfold Py.math_exp. destruct (Rlt_dec Py.exp_max x); [lra | reflexivity]. Qed.

Lemma math_exp_overflow x :
  Py.exp_max < x -> Py.math_exp (Py.finite x) = Raise OverflowError.
Proof.
  intros H. unfold Py.math_exp.
  destruct (Rlt_dec Py.exp_max x); [reflexivity | contradiction].
Qed.

Lemma float_max_large : 1e300 <= Py.float_max.
Proof. unfold Py.float_max. lra. Qed.

Lemma float_max_bounded : Py.float_max < 1e309.
Proof. unfold Py.float_max. lra. Qed.

Lemma overflow_finite x :
  - Py.float_max <= x <= Py.float_max -> Py.overflow x = Py.finite x.
Proof.
  intros [Hlo Hhi]. unfold Py.overflow.
  destruct (Rlt_dec Py.float_max x); [lra |].
  destruct (Rlt_dec x (- Py.float_max)); [lra | reflexivity].
Qed.

Lemma overflow_inf x : Py.float_max < x -> Py.overflow x = Py.inf.
Proof.
  intros H. unfold Py.overflow.
  destruct (Rlt_dec Py.float_max x); [reflexivity | contradiction].
Qed.

Lemma overflow_neg_inf x : x < - Py.float_max -> Py.overflow x = Py.neg_inf.
Proof.
  intros H. pose proof float_max_large. unfold Py.overflow.
  destruct (Rlt_dec Py.float_max x); [lra |].
  destruct (Rlt_dec x (- Py.float_max)); [reflexivity | contradiction].
Qed.

Lemma neg_one_over_neg x : x < 0 -> 0 < -1 / x.
Proof.
  intros H. pose proof (Rinv_neg x H) as Hi. unfold Rdiv. nra.
Qed.

Lemma neg_one_over_pos x : 0 < x -> -1 / x < 0.
Proof.
  intros H. pose proof (Rinv_0_lt_compat x H) as Hi. unfold Rdiv. nra.
Qed.

(** With a positive MTBF the failure probability is computed without
    error. *)
Lemma fail_prob_defined m :
  0 < mtbf m ->
  fail_prob m
  = Ok (Py.finite (1 - (if Rlt_dec (-1 / mtbf m) (- Py.float_max)
                        then 0.0 else exp (-1 / mtbf m)))).
Proof.
  intros H. unfold fail_prob. rewrite div_ok by lra. cbn [Py.bind].
  pose proof (neg_one_over_pos _ H). pose proof float_max_large.
  destruct (Rlt_dec (-1 / mtbf m) (- Py.float_max)) as [Hq | Hq].
  - rewrite overflow_neg_inf by exact Hq. reflexivity.
  - rewrite overflow_finite by lra.
    rewrite math_exp_ok by (unfold Py.exp_max; lra). reflexivity.
Qed.

(* ================================================================== *)
(** ** Machine: repair countdown and state invariant *)
(* ================================================================== *)

Section MachineFacts.

Variable m : Machine.

(** A broken machine with more than one day left stays broken. *)
Lemma daily_check_repairing rng :
  is_broken m = true -> (1 < days_to_repair m)%Z ->
  daily_check m rng = Ok (0.0, set_repair true (days_to_repair m - 1) m).
Proof.
  intros Hb Hd. unfold daily_check. rewrite Hb. cbn [days_to_repair set_repair].
  destruct (Z.leb_spec (days_to_repair m - 1) 0); [lia | reflexivity].
Qed.

(** A broken machine on its last day of repair produces nothing and is
    working afterwards. *)
Lemma daily_check_repaired rng :
  is_broken m = true -> (days_to_repair m <= 1)%Z ->
  daily_check m rng = Ok (0.0, set_repair false 0 m).
Proof.
  intros Hb Hd. unfold daily_check. rewrite Hb. cbn [days_to_repair set_repair].
  destruct (Z.leb_spec (days_to_repair m - 1) 0); [reflexivity | lia].
Qed.

(** A working machine whose failure draw does not fire produces its
    nominal rate and is unchanged. *)
Lemma daily_check_working rng :
  is_broken m = false -> failure_fires m rng = Ok false ->
  daily_check m rng = Ok (production_rate m, m).
Proof.
  intros Hb Hf. unfold daily_check. rewrite Hb, Hf. reflexivity.
Qed.

(** A working machine whose failure draw fires is broken for at least one
    day. *)
Lemma daily_check_failing rng :
  is_broken m = false -> failure_fires m rng = Ok true ->
  daily_check m rng = Ok (0.0, set_repair true (Py.ceil (lognormvariate rng)) m).
Proof.
  intros Hb Hf. unfold daily_check. rewrite Hb, Hf. reflexivity.
Qed.

End MachineFacts.

Lemma ceil_lognormvariate_pos rng : (1 <= Py.ceil (lognormvariate rng))%Z.
Proof.
  unfold Py.ceil, lognormvariate.
  pose proof (exp_pos (repair_normal rng)) as Hpos.
  pose proof (Zceil_bound (exp (repair_normal rng))) as [_ Hub].
  assert (0 < IZR (Zceil (exp (repair_normal rng)))) as H by lra.
  apply lt_IZR in H. lia.
Qed.

(** The four ways a call of [daily_check] can return. *)
Lemma daily_check_cases m rng p m' :
  daily_check m rng = Ok (p, m') ->
  (is_broken m = true /\ (1 < days_to_repair m)%Z /\ p = 0.0 /\
     m' = set_repair true (days_to_repair m - 1) m) \/
  (is_broken m = true /\ (days_to_repair m <= 1)%Z /\ p = 0.0 /\
     m' = set_repair false 0 m) \/
  (is_broken m = false /\ failure_fires m rng = Ok true /\ p = 0.0 /\
     m' = set_repair true (Py.ceil (lognormvariate rng)) m) \/
  (is_broken m = false /\ failure_fires m rng = Ok false /\
     p = production_rate m /\ m' = m).
Proof.
  intros H. destruct (is_broken m) eqn:Hb.
  - destruct (Z_lt_le_dec 1 (days_to_repair m)) as [Hd | Hd].
    + rewrite (daily_check_repairing m rng Hb Hd) in H. inversion H. auto.
    + rewrite (daily_check_repaired m rng Hb Hd) in H. inversion H. auto 6.
  - destruct (failure_fires m rng) as [[|]|e] eqn:Hf.
    + rewrite (daily_check_failing m rng Hb Hf) in H. inversion H. auto 8.
    + rewrite (daily_check_working m rng Hb Hf) in H. inversion H. auto 8.
    + unfold daily_check in H. rewrite Hb, Hf in H. discriminate.
Qed.

(** A call of [daily_check] returns whenever the MTBF is positive; it
    keeps name, rate and MTBF. *)
Lemma daily_check_returns m rng :
  0 < mtbf m ->
  exists p m', daily_check m rng = Ok (p, m') /\ mtbf m' = mtbf m /\
               production_rate m' = production_rate m.
Proof.
  intros Hm. unfold daily_check, failure_fires.
  rewrite (fail_prob_defined m Hm). cbn [Py.bind].
  destruct (is_broken m).
  - cbn [days_to_repair set_repair].
    destruct (days_to_repair m - 1 <=? 0)%Z; eauto.
  - destruct (Py.lt_float _ _); eauto.
Qed.

Lemma daily_check_production m rng p m' :
  daily_check m rng = Ok (p, m') -> p = 0 \/ p = production_rate m.
Proof.
  intros H. apply daily_check_cases in H.
  destruct H as [H | [H | [H | H]]]; decompose [and] H; subst; auto; left; lra.
Qed.

Lemma daily_check_keeps m rng p m' :
  daily_check m rng = Ok (p, m') ->
  mtbf m' = mtbf m /\ production_rate m' = production_rate m /\ name m' = name m.
Proof.
  intros H. apply daily_check_cases in H.
  destruct H as [H | [H | [H | H]]]; decompose [and] H; subst; auto.
Qed.



(** C9.  [days_to_repair == 0] whenever [is_broken == False]: the invariant
    holds for a new machine and every call of [daily_check] preserves it,
    whatever the draws; a freshly drawn failure sets the counter to a value
    >= 1, and clearing the broken flag resets it to 0. *)
Theorem machine_invariant_preserved :
  (forall name rate mtbf_days, machine_inv (Machine_init name rate mtbf_days)) /\
  (forall m rng p m',
      machine_inv m -> daily_check m rng = Ok (p, m') ->
      machine_inv m' /\
      (is_broken m = false -> is_broken m' = true -> (1 <= days_to_repair m')%Z) /\
      (is_broken m = true -> is_broken m' = false -> days_to_repair m' = 0%Z)).
Proof.
  split.
  - intros nm rate mt _. reflexivity.
  - intros m rng p m' Hinv H. unfold machine_inv in *.
    apply daily_check_cases in H.
    destruct H as [H | [H | [H | H]]];
      destruct H as (Hb & Hc & _ & ->); cbn [is_broken days_to_repair set_repair].
    + repeat split; intros; congruence.
    + repeat split; intros; congruence.
    + repeat split; intros; try congruence. apply ceil_lognormvariate_pos.
    + repeat split; intros; try congruence. auto.
Qed.

Lemma machine_invariant_witness :
  let m := set_repair true 1 (Machine_init "WaterRec-0" 30.0 120) in
  let m' := set_repair false 0 m in
  machine_inv m' /\
  (is_broken m = false -> is_broken m' = true -> (1 <= days_to_repair m')%Z) /\
  (is_broken m = true -> is_broken m' = false -> days_to_repair m' = 0%Z).
Proof.
  intros m m'.
  apply (proj2 machine_invariant_preserved m quiet_machine 0.0 m').
  - intros H. discriminate H.
  - reflexivity.
Defined.

(* ================================================================== *)
(** ** MarsEnvironment: bounds of the sunlight efficiency *)
(* ================================================================== *)

Lemma exp_neg_inv x : exp (- x) = / exp x.
Proof.
  pose proof (exp_pos x) as Hx.
  apply (Rmult_eq_reg_l (exp x)); [| lra].
  rewrite <- exp_plus, Rplus_opp_r, exp_0. field. lra.
Qed.

Lemma exp_double x : exp (2 * x) = exp x * exp x.
Proof. replace (2 * x) with (x + x) by lra. apply exp_plus. Qed.

(** [e^4.3 > 50], by five squarings of [e^x >= 1 + x]. *)
Lemma exp_storm_depth : 50 < exp 4.3.
Proof.
  pose proof (exp_ineq1_le (4.3 / 32)) as H1.
  pose proof (exp_double (4.3 / 32)) as E2.
  pose proof (exp_double (2 * (4.3 / 32))) as E4.
  pose proof (exp_double (2 * (2 * (4.3 / 32)))) as E8.
  pose proof (exp_double (2 * (2 * (2 * (4.3 / 32))))) as E16.
  pose proof (exp_double (2 * (2 * (2 * (2 * (4.3 / 32)))))) as E32.
  replace (2 * (2 * (2 * (2 * (2 * (4.3 / 32)))))) with 4.3 in E32 by lra.
  set (a1 := exp (4.3 / 32)) in *.
  set (a2 := exp (2 * (4.3 / 32))) in *.
  set (a4 := exp (2 * (2 * (4.3 / 32)))) in *.
  set (a8 := exp (2 * (2 * (2 * (4.3 / 32))))) in *.
  set (a16 := exp (2 * (2 * (2 * (2 * (4.3 / 32)))))) in *.
  assert (1.28 <= a2) by nra.
  assert (1.63 <= a4) by nra.
  assert (2.65 <= a8) by nra.
  assert (7.02 <= a16) by nra.
  nra.
Qed.

Lemma exp_neg_antitone a b : a <= b -> exp (- b) <= exp (- a).
Proof.
  intros [Hlt | ->]; [| apply Rle_refl].
  left. apply exp_increasing. lra.
Qed.

(** The efficiency under a storm is below the ambient floor before the
    floor is applied. *)
Lemma exp_storm_below_floor tau : 4.3 <= tau -> exp (- tau) < 0.02.
Proof.
  intros H. apply exp_neg_antitone in H.
  rewrite (exp_neg_inv 4.3) in H.
  pose proof exp_storm_depth as Hd.
  assert (/ exp 4.3 < / 50) as Hinv by (apply Rinv_lt_contravar; lra).
  lra.
Qed.

Lemma exp_calm_above_floor tau : tau <= 1 -> / 3 <= exp (- tau).
Proof.
  intros H. apply exp_neg_antitone in H.
  rewrite (exp_neg_inv 1) in H.
  pose proof exp_le_3 as H3. pose proof (exp_pos 1) as Hp.
  assert (/ 3 <= / exp 1) as Hinv by (apply Rinv_le_contravar; lra).
  lra.
Qed.

Lemma exp_nonneg_depth tau : 0 <= tau -> exp (- tau) <= 1.
Proof.
  intros [Hlt | <-].
  - rewrite <- exp_0. left. apply exp_increasing. lra.
  - rewrite Ropp_0, exp_0. lra.
Qed.

(** The seasonal optical depth lies in [0.3, 1.0]. *)
Lemma tau_base_bounds x : 0.3 <= 0.65 - 0.35 * sin x <= 1.0.
Proof. pose proof (SIN_bound x). lra. Qed.

Section Sunlight.

Variable Ls_degrees : R.
Variable rng : StormDraw.

(** Under a storm the efficiency is exactly the ambient floor. *)
Lemma efficiency_storming self :
  is_storming self = true ->
  fst (get_sunlight_efficiency self Ls_degrees rng) = 0.02.
Proof.
  intros Hs. unfold get_sunlight_efficiency. rewrite Hs.
  cbn [fst].
  pose proof (tau_base_bounds (Py.radians Ls_degrees)) as Hb.
  pose proof (exp_storm_below_floor
                (0.65 - 0.35 * sin (Py.radians Ls_degrees) + 4.0)) as He.
  py_cases; lra.
Qed.

(** Without a storm it is [exp (- tau_base)], which is at least a third. *)
Lemma efficiency_calm self :
  is_storming self = false ->
  fst (get_sunlight_efficiency self Ls_degrees rng)
    = exp (- (0.65 - 0.35 * sin (Py.radians Ls_degrees) + 0.0)) /\
  / 3 <= fst (get_sunlight_efficiency self Ls_degrees rng) <= 1.
Proof.
  intros Hs. unfold get_sunlight_efficiency. rewrite Hs.
  pose proof (tau_base_bounds (Py.radians Ls_degrees)) as Hb.
  pose proof (exp_calm_above_floor
                (0.65 - 0.35 * sin (Py.radians Ls_degrees) + 0.0)) as He.
  pose proof (exp_nonneg_depth
                (0.65 - 0.35 * sin (Py.radians Ls_degrees) + 0.0)) as Hu.
  destruct (Py.ltb 200 Ls_degrees && Py.ltb Ls_degrees 300);
    [destruct (Py.ltb (trigger_u rng) 0.005) |]; cbn [fst];
    (split; [py_cases; lra | py_cases; lra]).
Qed.

End Sunlight.

(** C4.  For every season angle, every environment state and every draw,
    [get_sunlight_efficiency] returns a value in [0.02, 1.0]; for a fixed
    angle the value returned while a storm is active is strictly below the
    value returned with no storm active. *)
Theorem sunlight_efficiency_bounds :
  (forall self Ls_degrees rng,
      0.02 <= fst (get_sunlight_efficiency self Ls_degrees rng) <= 1.0) /\
  (forall Ls_degrees counter counter' rng rng',
      fst (get_sunlight_efficiency
             {| is_storming := true; storm_counter := counter |} Ls_degrees rng)
      < fst (get_sunlight_efficiency
               {| is_storming := false; storm_counter := counter' |}
               Ls_degrees rng')).
Proof.
  split.
  - intros self Ls rng. destruct (is_storming self) eqn:Hs.
    + rewrite (efficiency_storming Ls rng self Hs). lra.
    + destruct (efficiency_calm Ls rng self Hs) as [_ H]. lra.
  - intros Ls c c' rng rng'.
    rewrite (efficiency_storming Ls rng) by reflexivity.
    destruct (efficiency_calm Ls rng' {| is_storming := false; storm_counter := c' |})
      as [_ H]; [reflexivity | lra].
Qed.

Lemma efficiency_range self Ls_degrees rng :
  0.02 <= fst (get_sunlight_efficiency self Ls_degrees rng) <= 1.0.
Proof.
  destruct (is_storming self) eqn:Hs.
  - rewrite (efficiency_storming Ls_degrees rng self Hs). lra.
  - destruct (efficiency_calm Ls_degrees rng self Hs) as [_ H]. lra.
Qed.

(* ================================================================== *)
(** ** CropModule: five days without water *)
(* ================================================================== *)

(** In exact arithmetic five dry days take the health from 1 to exactly 0,
    the fifth call yields (0, 0), and ten watered days bring it back to 1,
    by 0.1 a day. *)
Lemma grow_dry_exact self gauss :
  0.2 < health self <= 1 ->
  exists y, grow self false gauss = (y, set_health (health self - 0.2) self).
Proof.
  intros H. unfold grow. cbn [negb health set_health base_food base_o2].
  py_cases; try lra; eauto.
Qed.

Lemma grow_last_dry_exact self gauss :
  health self <= 0.2 ->
  grow self false gauss = ((0.0, 0.0), set_health 0.0 self).
Proof.
  intros H. unfold grow. cbn [negb health set_health base_food base_o2].
  py_cases; try lra; reflexivity.
Qed.

Lemma grow_wet_exact self gauss :
  0 <= health self <= 0.9 ->
  health (snd (grow self true gauss)) = health self + 0.1.
Proof.
  intros H. unfold grow. cbn [negb health set_health base_food base_o2].
  py_cases; cbn [snd health set_health]; lra.
Qed.

Lemma grow_wet_full_exact self gauss :
  0.9 <= health self <= 1 ->
  health (snd (grow self true gauss)) = 1.
Proof.
  intros H. unfold grow. cbn [negb health set_health base_food base_o2].
  py_cases; cbn [snd health set_health]; lra.
Qed.

(** C5, on the numbers Python computes with.  From health 1.0, five calls
    [grow(False)] leave the health at 2^-54 (about 5.55e-17), not 0, and the
    fifth call returns positive yields; only the sixth call reaches health 0
    and yields (0, 0). *)
Theorem five_dry_days_binary64 :
  let crop := Binary64.CropModule_init 30000.0 1.0 in
  let dry := (false, 1.0%float) in
  let '(yields5, crop5) := Binary64.grows crop [dry; dry; dry; dry; dry] in
  let '(yields6, crop6) := Binary64.grows crop [dry; dry; dry; dry; dry; dry] in
  Binary64.health crop5 = 0x1p-54%float /\
  nth 4 yields5 (0%float, 0%float) = (0x1.d4cp-40%float, 0x1p-54%float) /\
  Binary64.health crop6 = 0%float /\
  nth 5 yields6 (1%float, 1%float) = (0%float, 0%float).
Proof. vm_compute. repeat split; reflexivity. Qed.

(** After the five dry days the health rises on each watered day, by about
    0.1, and is 1.0 after the eleventh. *)
Lemma recovery_binary64 :
  let crop := Binary64.CropModule_init 30000.0 1.0 in
  let dry := (false, 1.0%float) in
  let wet := (true, 1.0%float) in
  let health_after n :=
    Binary64.health
      (snd (Binary64.grows crop (repeat dry 5 ++ repeat wet n))) in
  map health_after (seq 0 12)
  = [0x1p-54; 0.10000000000000006; 0.20000000000000007; 0.30000000000000004;
     0.4; 0.5; 0.6; 0.7; 0.7999999999999999; 0.8999999999999999;
     0.9999999999999999; 1.0]%float.
Proof. vm_compute. reflexivity. Qed.

(** The same five calls in exact arithmetic: the health is exactly 0 and
    the fifth call yields (0, 0). *)
Lemma five_dry_days_exact (base_food base_o2 g1 g2 g3 g4 g5 : R) :
  let crop := CropModule_init base_food base_o2 in
  let '(yields5, crop5) :=
    grows crop [(false, g1); (false, g2); (false, g3); (false, g4); (false, g5)] in
  health crop5 = 0 /\ nth 4 yields5 (1, 1) = (0, 0).
Proof.
  intros c0. cbn [grows].
  destruct (grow_dry_exact c0 g1) as [y1 ->]; [cbn; lra |].
  set (c1 := set_health _ c0).
  destruct (grow_dry_exact c1 g2) as [y2 ->]; [cbn; lra |].
  set (c2 := set_health _ c1).
  destruct (grow_dry_exact c2 g3) as [y3 ->]; [cbn; lra |].
  set (c3 := set_health _ c2).
  destruct (grow_dry_exact c3 g4) as [y4 ->]; [cbn; lra |].
  set (c4 := set_health _ c3).
  rewrite (grow_last_dry_exact c4 g5) by (cbn; lra).
  cbn. split; [lra | f_equal; lra].
Qed.

(* ================================================================== *)
(** ** Monte Carlo driver without trials *)
(* ================================================================== *)

Lemma MCSimConfig_init_returns mode :
  exists config, MCSimConfig_init mode = Ok config.
Proof. unfold MCSimConfig_init. eauto. Qed.

Lemma MCSimConfig_init_control : MCSimConfig_init "CONTROL" = Ok control_config.
Proof. reflexivity. Qed.

(** C6.  [run_mcs] with no trial does not return: after the empty loop,
    with 0 successes and an empty [death_reasons], the success rate
    [success_count / n_simulations] divides by zero. *)
Theorem run_mcs_zero_trials_raises crew experiment_mode rngs :
  (forall config, trials crew config (Z.to_nat 0) rngs 0 [] = Ok (0%Z, [])) /\
  run_mcs crew experiment_mode 0 rngs = Raise ZeroDivisionError.
Proof.
  split; [reflexivity |].
  unfold run_mcs.
  destruct (MCSimConfig_init_returns experiment_mode) as [config ->].
  cbn [Py.bind Z.to_nat trials]. rewrite div_zero. reflexivity.
Qed.

(* ================================================================== *)
(** ** The machine loops of [step] *)
(* ================================================================== *)

Section ForEach.

Variable body : Machine -> MachineDraw -> Locals -> result (Machine * Locals).

(** A property of the machines and a property of the local variables that
    every iteration preserves hold after the loop. *)
Lemma for_each_preserves (Q : Machine -> Prop) (P : Locals -> Prop) :
  (forall m rng l m' l',
      Q m -> P l -> body m rng l = Ok (m', l') -> Q m' /\ P l') ->
  forall machines rngs l machines' l',
    Forall Q machines -> P l ->
    for_each body machines rngs l = Ok (machines', l') ->
    Forall Q machines' /\ P l'.
Proof.
  intros Hbody machines.
  induction machines as [| m rest IH]; intros rngs l machines' l' HQ HP Hrun.
  - cbn in Hrun. inversion Hrun; subst. auto.
  - cbn [for_each] in Hrun.
    destruct (body m (rngs 0%nat) l) as [[m1 l1] | e] eqn:Hm; [| discriminate].
    cbn [Py.bind] in Hrun.
    destruct (for_each body rest (fun i => rngs (S i)) l1)
      as [[rest1 l2] | e] eqn:Hrest; [| discriminate].
    cbn [Py.bind] in Hrun. inversion Hrun; subst.
    inversion HQ; subst.
    destruct (Hbody _ _ _ _ _ H1 HP Hm) as [HQ1 HP1].
    destruct (IH _ _ _ _ H2 HP1 Hrest) as [HQr HPr].
    split; [constructor |]; assumption.
Qed.

Lemma for_each_preserves_locals (P : Locals -> Prop) :
  (forall m rng l m' l', P l -> body m rng l = Ok (m', l') -> P l') ->
  forall machines rngs l machines' l',
    P l -> for_each body machines rngs l = Ok (machines', l') -> P l'.
Proof.
  intros Hbody machines rngs l machines' l' HP Hrun.
  refine (proj2 (for_each_preserves (fun _ => True) P _ _ _ _ _ _ _ HP Hrun)).
  - intros. split; [exact I | eauto].
  - clear. induction machines; constructor; auto.
Qed.

(** The loop returns when every iteration does. *)
Lemma for_each_returns (Q : Machine -> Prop) :
  (forall m rng l, Q m -> exists m' l', body m rng l = Ok (m', l') /\ Q m') ->
  forall machines rngs l,
    Forall Q machines ->
    exists machines' l',
      for_each body machines rngs l = Ok (machines', l') /\ Forall Q machines'.
Proof.
  intros Hbody machines.
  induction machines as [| m rest IH]; intros rngs l HQ.
  - exists [], l. split; [reflexivity | constructor].
  - inversion HQ; subst.
    destruct (Hbody m (rngs 0%nat) l H1) as (m1 & l1 & Hm & HQ1).
    destruct (IH (fun i => rngs (S i)) l1 H2) as (rest1 & l2 & Hrest & HQr).
    exists (m1 :: rest1), l2. cbn [for_each].
    rewrite Hm. cbn [Py.bind]. rewrite Hrest. cbn [Py.bind].
    split; [reflexivity | constructor; assumption].
Qed.

End ForEach.

(** One iteration either skips the machine or runs it and charges its
    power cost. *)
Lemma oxygenator_body_cases config o2_now oxy rng l oxy' l' :
  oxygenator_body config o2_now oxy rng l = Ok (oxy', l') ->
  (oxy' = oxy /\ l' = l /\
   (available_power l < oxygenator_power_cost config
    \/ max_o2_tank config <= o2_now)) \/
  (exists p,
      oxygenator_power_cost config <= available_power l /\
      o2_now < max_o2_tank config /\
      daily_check oxy rng = Ok (p, oxy') /\
      l' = charge (oxygenator_power_cost config) (add_o2 p l)).
Proof.
  unfold oxygenator_body. intros H.
  destruct (Py.leb _ _) eqn:Hpow; cbn [andb] in H.
  - destruct (Py.ltb _ _) eqn:Hneed.
    + destruct (daily_check oxy rng) as [[p m1] | e]; [| discriminate].
      cbn [Py.bind] in H. inversion H; subst.
      right. exists p. apply leb_true in Hpow. apply ltb_true in Hneed. auto.
    + inversion H; subst. apply ltb_false in Hneed. auto.
  - inversion H; subst. apply leb_false in Hpow. auto.
Qed.

Lemma reclaimer_body_cases config water_now water_rec rng l water_rec' l' :
  reclaimer_body config water_now water_rec rng l = Ok (water_rec', l') ->
  (water_rec' = water_rec /\ l' = l /\
   (available_power l < water_reclaimer_power_cost config
    \/ max_water_tank config <= water_now)) \/
  (exists p,
      water_reclaimer_power_cost config <= available_power l /\
      water_now < max_water_tank config /\
      daily_check water_rec rng = Ok (p, water_rec') /\
      l' = charge (water_reclaimer_power_cost config)
                  (reclaim (Py.min p (waste l)) l)).
Proof.
  unfold reclaimer_body. intros H.
  destruct (Py.leb _ _) eqn:Hpow; cbn [andb] in H.
  - destruct (Py.ltb _ _) eqn:Hneed.
    + destruct (daily_check water_rec rng) as [[p m1] | e]; [| discriminate].
      cbn [Py.bind] in H. inversion H; subst.
      right. exists p. apply leb_true in Hpow. apply ltb_true in Hneed. auto.
    + inversion H; subst. apply ltb_false in Hneed. auto.
  - inversion H; subst. apply leb_false in Hpow. auto.
Qed.

Lemma oxygenator_body_returns config o2_now oxy rng l :
  0 < mtbf oxy ->
  exists oxy' l',
    oxygenator_body config o2_now oxy rng l = Ok (oxy', l') /\ 0 < mtbf oxy'.
Proof.
  intros Hm. unfold oxygenator_body.
  destruct (Py.leb _ _ && Py.ltb _ _); [| eauto].
  destruct (daily_check_returns oxy rng Hm) as (p & m' & -> & Hk & _).
  cbn [Py.bind]. do 2 eexists. split; [reflexivity | congruence].
Qed.

Lemma reclaimer_body_returns config water_now water_rec rng l :
  0 < mtbf water_rec ->
  exists water_rec' l',
    reclaimer_body config water_now water_rec rng l = Ok (water_rec', l') /\
    0 < mtbf water_rec'.
Proof.
  intros Hm. unfold reclaimer_body.
  destruct (Py.leb _ _ && Py.ltb _ _); [| eauto].
  destruct (daily_check_returns water_rec rng Hm) as (p & m' & -> & Hk & _).
  cbn [Py.bind]. do 2 eexists. split; [reflexivity | congruence].
Qed.






(* ================================================================== *)
(** ** [step]: what a day computes *)
(* ================================================================== *)

(** [step_trace] returns exactly when its two loops do, with the colony
    and the trace built from their results. *)
Lemma step_trace_inv crew self rng self' t :
  step_trace crew self rng = Ok (self', t) ->
  exists oxys l1 recs l2,
    for_each (oxygenator_body (cfg self) (o2 self))
             (oxygenators self) (oxygenator_draws rng)
             (locals_of crew self rng) = Ok (oxys, l1) /\
    for_each (reclaimer_body (cfg self) (water self))
             (water_reclaimers self) (reclaimer_draws rng) l1 = Ok (recs, l2) /\
    let battery_sum :=
      battery self + (power_gen_of self rng - total_power_need l2) in
    let battery' := cap_at (max_battery (cfg self)) battery_sum in
    let o2' :=
      cap_at (max_o2_tank (cfg self))
             (o2 self + (o2_produced l2 + snd (crop_yields_of crew self rng)
                         - daily_o2_consumption (cfg self) * crew)) in
    let water' :=
      cap_at (max_water_tank (cfg self))
             (water self + (water_reclaimed l2 - water_need_of crew self)) in
    let food' :=
      food self + (fst (crop_yields_of crew self rng)
                   - daily_food_consumption (cfg self) * crew) in
    let verdict := survival_check battery' o2' water' food' in
    t = {| power_gen := power_gen_of self rng;
           before_machines := locals_of crew self rng;
           after_oxygenators := l1;
           after_reclaimers := l2;
           battery_before_cap := battery_sum;
           death := verdict |} /\
    self' =
      {| cfg := cfg self;
         day := (day self + 1)%Z;
         alive := match verdict with Some _ => false | None => alive self end;
         cause_of_death :=
           match verdict with
           | Some cause => cause
           | None => cause_of_death self
           end;
         o2 := o2';
         water := water';
         waste_water := waste l2;
         battery := battery';
         food := food';
         env := snd (get_sunlight_efficiency
                       (env self) (IZR ((day self + 1) mod 360)) (storm_draw rng));
         crops := snd (grow (crops self) (crop_watered crew self) (crop_gauss rng));
         oxygenators := oxys;
         water_reclaimers := recs |}.
Proof.
  unfold step_trace, locals_of, crop_yields_of, water_need_of, power_gen_of,
    sun_eff_of, crop_watered.
  destruct (get_sunlight_efficiency _ _ _) as [sun_eff env'].
  destruct (grow _ _ _) as [[food_produced crop_o2_produced] crops'].
  cbn [fst snd].
  intros H.
  match type of H with
  | Py.bind ?a _ = _ => destruct a as [[oxys l1] | e] eqn:Hoxy; [| discriminate]
  end.
  cbn [Py.bind] in H.
  match type of H with
  | Py.bind ?a _ = _ => destruct a as [[recs l2] | e] eqn:Hrec; [| discriminate]
  end.
  cbn [Py.bind] in H. inversion H; subst; clear H.
  exists oxys, l1, recs, l2. repeat split; assumption.
Qed.

Lemma step_inv crew self rng self' :
  step crew self rng = Ok self' ->
  exists t, step_trace crew self rng = Ok (self', t).
Proof.
  unfold step. destruct (step_trace crew self rng) as [[s t] | e]; [| discriminate].
  cbn [Py.bind]. intros H. inversion H; subst. eauto.
Qed.

(** [step] returns when every machine of the colony has a positive MTBF,
    and the machines keep that property. *)
Lemma step_trace_returns crew self rng :
  machines_ok self ->
  exists self' t, step_trace crew self rng = Ok (self', t) /\ machines_ok self'.
Proof.
  intros [Hox Hrec].
  destruct (for_each_returns (oxygenator_body (cfg self) (o2 self))
              (fun m => 0 < mtbf m)
              (fun m r l => oxygenator_body_returns _ _ m r l)
              (oxygenators self) (oxygenator_draws rng) (locals_of crew self rng) Hox)
    as (oxys & l1 & Hrun1 & Hox').
  destruct (for_each_returns (reclaimer_body (cfg self) (water self))
              (fun m => 0 < mtbf m)
              (fun m r l => reclaimer_body_returns _ _ m r l)
              (water_reclaimers self) (reclaimer_draws rng) l1 Hrec)
    as (recs & l2 & Hrun2 & Hrec').
  unfold step_trace.
  unfold locals_of, water_need_of, power_gen_of, sun_eff_of, crop_watered in Hrun1.
  destruct (get_sunlight_efficiency _ _ _) as [sun_eff env'].
  destruct (grow _ _ _) as [[food_produced crop_o2_produced] crops'].
  cbn [fst snd] in Hrun1. rewrite Hrun1. cbn [Py.bind]. rewrite Hrun2. cbn [Py.bind].
  do 2 eexists. split; [reflexivity |].
  split; assumption.
Qed.

Lemma step_returns crew self rng :
  machines_ok self ->
  exists self', step crew self rng = Ok self' /\ machines_ok self'.
Proof.
  intros H. destruct (step_trace_returns crew self rng H) as (s & t & E & Hok).
  exists s. unfold step. rewrite E. auto.
Qed.

Lemma machines_ok_init config :
  0 < oxygenator_mtbf config -> 0 < water_reclaimer_mtbf config ->
  machines_ok (MarsColony_init config).
Proof.
  intros H1 H2. split; cbn [MarsColony_init oxygenators water_reclaimers];
    apply Forall_map, Forall_forall; intros; assumption.
Qed.

(** C1.  Immediately after [step] returns, whatever the state it was called
    on and whatever the draws, oxygen, water and battery are at most their
    configured maxima. *)
Theorem step_caps_stocks crew self rng self' :
  step crew self rng = Ok self' ->
  o2 self' <= max_o2_tank (cfg self') /\
  water self' <= max_water_tank (cfg self') /\
  battery self' <= max_battery (cfg self').
Proof.
  intros H. apply step_inv in H. destruct H as [t H].
  apply step_trace_inv in H.
  destruct H as (oxys & l1 & recs & l2 & _ & _ & _ & ->).
  cbn [o2 water battery cfg].
  repeat split; apply cap_at_le.
Qed.

Lemma step_caps_stocks_witness :
  exists self',
    step crew_size (MarsColony_init control_config) (storm_on_day_201 0) = Ok self' /\
    o2 self' <= max_o2_tank (cfg self') /\
    water self' <= max_water_tank (cfg self') /\
    battery self' <= max_battery (cfg self').
Proof.
  destruct (step_returns crew_size (MarsColony_init control_config)
              (storm_on_day_201 0)) as (self' & Hstep & _).
  - apply machines_ok_init; cbn; lra.
  - exists self'. split; [exact Hstep |].
    exact (step_caps_stocks _ _ _ _ Hstep).
Defined.

(* ================================================================== *)
(** ** Power: machines never overdraw the battery *)
(* ================================================================== *)

Lemma survival_check_power b o w f :
  survival_check b o w f = Some "Power Failure" <-> b < 0.
Proof.
  unfold survival_check.
  destruct (Py.ltb b 0) eqn:Hb.
  - apply ltb_true in Hb. tauto.
  - apply ltb_false in Hb.
    destruct (Py.ltb o 0); [| destruct (Py.ltb w 0); [| destruct (Py.ltb f 0)]];
      split; intros H; try discriminate H; lra.
Qed.


Lemma ran_count_le ran : (ran_count ran <= List.length ran)%nat.
Proof.
  induction ran as [| [|] rest IH]; cbn [ran_count List.length]; lia.
Qed.

Lemma dispatch_length machine_power needs n :
  forall power, List.length (dispatch machine_power needs power n) = n.
Proof.
  induction n as [| n IH]; intros power; cbn [dispatch]; [reflexivity |].
  destruct (Py.leb machine_power power && needs); cbn [List.length];
    rewrite IH; reflexivity.
Qed.

Section Dispatch.

Variable body : Machine -> MachineDraw -> Locals -> result (Machine * Locals).
Variable machine_power : R.
Variable needs : bool.

(** What an iteration of either loop does with its guard: behind an open
    guard the machine is checked and its cost moves from the power
    available to the power needed; behind a closed guard nothing changes. *)
Hypothesis body_guard :
  forall m rng l m' l',
    body m rng l = Ok (m', l') ->
    if Py.leb machine_power (available_power l) && needs
    then (exists p, daily_check m rng = Ok (p, m')) /\
         available_power l' = available_power l - machine_power /\
         total_power_need l' = total_power_need l + machine_power
    else m' = m /\ l' = l.

(** The loop checks exactly the machines that [dispatch] flags and bills
    each of them once. *)
Lemma for_each_dispatch machines :
  forall rngs l machines' l',
    for_each body machines rngs l = Ok (machines', l') ->
    let ran :=
      dispatch machine_power needs (available_power l) (List.length machines) in
    checked machines rngs ran machines' /\
    available_power l' = available_power l - machine_power * INR (ran_count ran) /\
    total_power_need l' = total_power_need l + machine_power * INR (ran_count ran).
Proof.
  induction machines as [| m rest IH]; intros rngs l machines' l' Hrun.
  - cbn in Hrun. inversion Hrun; subst. cbn. repeat split; lra.
  - cbn [for_each] in Hrun.
    destruct (body m (rngs 0%nat) l) as [[m1 l1] | e] eqn:Hm; [| discriminate].
    cbn [Py.bind] in Hrun.
    destruct (for_each body rest (fun i => rngs (S i)) l1)
      as [[rest1 l2] | e] eqn:Hrest; [| discriminate].
    cbn [Py.bind] in Hrun. inversion Hrun; subst.
    pose proof (body_guard _ _ _ _ _ Hm) as Hguard.
    destruct (IH _ _ _ _ Hrest) as (Hc & Ha & Ht).
    cbn [List.length dispatch].
    destruct (Py.leb machine_power (available_power l) && needs).
    + destruct Hguard as (Hcheck & Ha1 & Ht1).
      rewrite Ha1 in Hc, Ha, Ht. cbn [checked ran_count]. rewrite S_INR.
      repeat split; auto; lra.
    + destruct Hguard as [-> ->]. cbn [checked ran_count].
      repeat split; auto.
Qed.

End Dispatch.

Lemma oxygenator_body_guard config o2_now m rng l m' l' :
  oxygenator_body config o2_now m rng l = Ok (m', l') ->
  if Py.leb (oxygenator_power_cost config) (available_power l)
     && Py.ltb o2_now (max_o2_tank config)
  then (exists p, daily_check m rng = Ok (p, m')) /\
       available_power l' = available_power l - oxygenator_power_cost config /\
       total_power_need l' = total_power_need l + oxygenator_power_cost config
  else m' = m /\ l' = l.
Proof.
  unfold oxygenator_body.
  destruct (Py.leb _ _ && Py.ltb _ _).
  - destruct (daily_check m rng) as [[p m1] | e]; cbn [Py.bind]; [| discriminate].
    intros H. inversion H; subst. cbn. eauto.
  - intros H. inversion H; subst. auto.
Qed.

Lemma reclaimer_body_guard config water_now m rng l m' l' :
  reclaimer_body config water_now m rng l = Ok (m', l') ->
  if Py.leb (water_reclaimer_power_cost config) (available_power l)
     && Py.ltb water_now (max_water_tank config)
  then (exists p, daily_check m rng = Ok (p, m')) /\
       available_power l' = available_power l - water_reclaimer_power_cost config /\
       total_power_need l' = total_power_need l + water_reclaimer_power_cost config
  else m' = m /\ l' = l.
Proof.
  unfold reclaimer_body.
  destruct (Py.leb _ _ && Py.ltb _ _).
  - destruct (daily_check m rng) as [[p m1] | e]; cbn [Py.bind]; [| discriminate].
    intros H. inversion H; subst. cbn. eauto.
  - intros H. inversion H; subst. auto.
Qed.



(* ================================================================== *)
(** ** Water: the reclaimers take no more than the waste tank holds *)
(* ================================================================== *)

Lemma oxygenator_loop_keeps_water config o2_now machines rngs l machines' l' :
  for_each (oxygenator_body config o2_now) machines rngs l = Ok (machines', l') ->
  waste l' = waste l /\ water_reclaimed l' = water_reclaimed l.
Proof.
  intros Hrun.
  apply (for_each_preserves_locals _
           (fun x => waste x = waste l /\ water_reclaimed x = water_reclaimed l))
    with (3 := Hrun); auto.
  intros m rng l0 m' l0' HP Hbody.
  apply oxygenator_body_cases in Hbody.
  destruct Hbody as [(_ & -> & _) | (p & _ & _ & _ & ->)]; [exact HP |].
  exact HP.
Qed.

Lemma reclaimer_loop_keeps_o2 config water_now machines rngs l machines' l' :
  for_each (reclaimer_body config water_now) machines rngs l = Ok (machines', l') ->
  o2_produced l' = o2_produced l.
Proof.
  intros Hrun.
  apply (for_each_preserves_locals _ (fun x => o2_produced x = o2_produced l))
    with (3 := Hrun); auto.
  intros m rng l0 m' l0' HP Hbody.
  apply reclaimer_body_cases in Hbody.
  destruct Hbody as [(_ & -> & _) | (p & _ & _ & _ & ->)]; exact HP.
Qed.

(** What the reclaimers take leaves the waste tank, which never goes below
    empty. *)
Lemma reclaimer_loop_waste config water_now machines rngs l machines' l' :
  0 <= waste l ->
  for_each (reclaimer_body config water_now) machines rngs l = Ok (machines', l') ->
  water_reclaimed l' + waste l' = water_reclaimed l + waste l /\ 0 <= waste l'.
Proof.
  intros Hw Hrun.
  apply (for_each_preserves_locals _
           (fun x => water_reclaimed x + waste x = water_reclaimed l + waste l
                     /\ 0 <= waste x))
    with (3 := Hrun); auto.
  intros m rng l0 m' l0' [HP Hpos] Hbody.
  apply reclaimer_body_cases in Hbody.
  destruct Hbody as [(_ & -> & _) | (p & _ & _ & _ & ->)]; [auto |].
  cbn [charge reclaim water_reclaimed waste].
  pose proof (min_le_r p (waste l0)). split; lra.
Qed.

Lemma water_need_nonneg crew self :
  0 <= daily_water_consumption (cfg self) ->
  0 <= crop_daily_water_need (cfg self) ->
  0 <= crew ->
  0 <= water_need_of crew self.
Proof.
  intros H1 H2 H3. unfold water_need_of.
  pose proof (Rmult_le_pos _ _ H1 H3).
  destruct (crop_watered crew self); lra.
Qed.

(** One day: the waste tank stays non-negative and bounds what the
    reclaimers take. *)
Lemma step_trace_waste crew self rng self' t :
  nonneg_config (cfg self) -> 0 <= crew -> 0 <= waste_water self ->
  step_trace crew self rng = Ok (self', t) ->
  water_reclaimed (after_oxygenators t) = 0 /\
  0 <= waste (after_oxygenators t) /\
  water_reclaimed (after_reclaimers t) <= waste (after_oxygenators t) /\
  waste_water self' = waste (after_oxygenators t) - water_reclaimed (after_reclaimers t) /\
  0 <= waste_water self'.
Proof.
  intros Hcfg Hcrew Hw H.
  apply step_trace_inv in H.
  destruct H as (oxys & l1 & recs & l2 & Hrun1 & Hrun2 & -> & ->).
  cbn [after_oxygenators after_reclaimers waste_water].
  destruct (oxygenator_loop_keeps_water _ _ _ _ _ _ _ Hrun1) as [Hw1 Hr1].
  cbn [locals_of waste water_reclaimed] in Hw1, Hr1.
  assert (0 <= waste l1) as Hpos.
  { rewrite Hw1.
    pose proof (water_need_nonneg crew self (nn_water_consumption _ Hcfg)
                  (nn_crop_water _ Hcfg) Hcrew) as Hneed.
    pose proof (Rmult_le_pos _ _ Hneed (nn_recycle_efficiency _ Hcfg)). lra. }
  destruct (reclaimer_loop_waste _ _ _ _ _ _ _ Hpos Hrun2) as [Hsum Hpos2].
  repeat split; try lra.
Qed.

Lemma step_keeps_cfg crew self rng self' :
  step crew self rng = Ok self' -> cfg self' = cfg self.
Proof.
  intros H. apply step_inv in H. destruct H as [t H].
  apply step_trace_inv in H.
  destruct H as (oxys & l1 & recs & l2 & _ & _ & _ & ->). reflexivity.
Qed.

Lemma reachable_waste crew config self :
  nonneg_config config -> 0 <= crew ->
  reachable crew config self ->
  cfg self = config /\ 0 <= waste_water self.
Proof.
  intros Hcfg Hcrew Hreach.
  induction Hreach as [| self rng self' Hreach [IHc IHw] Hstep].
  - cbn. split; [reflexivity | lra].
  - split.
    + rewrite (step_keeps_cfg _ _ _ _ Hstep). exact IHc.
    + apply step_inv in Hstep. destruct Hstep as [t Hstep].
      eapply step_trace_waste; [| exact Hcrew | exact IHw | exact Hstep].
      rewrite IHc. exact Hcfg.
Qed.

(** C2.  In every day of a colony reached from a fresh one, the water
    reclaimed by the reclaimer loop (0 before the loop) is at most the
    waste water at the start of that loop, and the waste water is
    non-negative after the step, whatever the draws.  Rates are
    non-negative, as the configuration invariant says. *)
Theorem reclaimed_water_bounded_by_waste crew config self rng self' t :
  nonneg_config config -> 0 <= crew ->
  reachable crew config self ->
  step_trace crew self rng = Ok (self', t) ->
  water_reclaimed (after_oxygenators t) = 0 /\
  water_reclaimed (after_reclaimers t) <= waste (after_oxygenators t) /\
  0 <= waste_water self'.
Proof.
  intros Hcfg Hcrew Hreach Hstep.
  destruct (reachable_waste _ _ _ Hcfg Hcrew Hreach) as [Hc Hw].
  rewrite <- Hc in Hcfg.
  destruct (step_trace_waste _ _ _ _ _ Hcfg Hcrew Hw Hstep)
    as (H0 & _ & Hle & _ & Hpos).
  auto.
Qed.

Lemma control_config_nonneg : nonneg_config control_config.
Proof. constructor; cbn; try lra; lia. Qed.

Lemma control_machines_ok : machines_ok (MarsColony_init control_config).
Proof. apply machines_ok_init; cbn; lra. Qed.

Lemma reclaimed_water_bounded_witness :
  exists self' t,
    step_trace crew_size (MarsColony_init control_config) (storm_on_day_201 0)
    = Ok (self', t) /\
    water_reclaimed (after_oxygenators t) = 0 /\
    water_reclaimed (after_reclaimers t) <= waste (after_oxygenators t) /\
    0 <= waste_water self'.
Proof.
  destruct (step_trace_returns crew_size (MarsColony_init control_config)
              (storm_on_day_201 0) control_machines_ok)
    as (self' & t & Hstep & _).
  exists self', t. split; [exact Hstep |].
  apply (reclaimed_water_bounded_by_waste crew_size control_config
           (MarsColony_init control_config) (storm_on_day_201 0) self' t).
  - exact control_config_nonneg.
  - unfold crew_size. lra.
  - apply reach_init.
  - exact Hstep.
Defined.

(* ================================================================== *)
(** ** Configuration: nothing is validated *)
(* ================================================================== *)

Lemma for_each_raises body m rest rngs l e :
  body m (rngs 0%nat) l = Raise e ->
  for_each body (m :: rest) rngs l = Raise e.
Proof. intros H. cbn [for_each]. rewrite H. reflexivity. Qed.

Lemma step_trace_raises crew self rng e :
  for_each (oxygenator_body (cfg self) (o2 self))
           (oxygenators self) (oxygenator_draws rng)
           (locals_of crew self rng) = Raise e ->
  step_trace crew self rng = Raise e.
Proof.
  unfold step_trace, locals_of, water_need_of, power_gen_of, sun_eff_of,
    crop_watered.
  destruct (get_sunlight_efficiency _ _ _) as [sun_eff env'].
  destruct (grow _ _ _) as [[food_produced crop_o2_produced] crops'].
  cbn [fst snd]. intros ->. reflexivity.
Qed.

(** A working machine with a zero MTBF cannot be checked. *)
Lemma daily_check_zero_mtbf m rng :
  is_broken m = false -> mtbf m = 0 ->
  daily_check m rng = Raise ZeroDivisionError.
Proof.
  intros Hb Hm. unfold daily_check, failure_fires, fail_prob.
  rewrite Hb, Hm, div_zero. reflexivity.
Qed.

Lemma power_gen_nonneg self rng :
  0 <= solar_capacity (cfg self) -> 0 <= power_gen_of self rng.
Proof.
  intros H. unfold power_gen_of, sun_eff_of.
  pose proof (efficiency_range (env self) (IZR ((day self + 1) mod 360))
                (storm_draw rng)) as [Hlo _].
  apply Rmult_le_pos; [apply Rmult_le_pos |]; lra.
Qed.

(** The counterexample to C7: the configuration object of mode CONTROL,
    with [oxygenator_mtbf] set to 0, is an invalid configuration that
    nothing rejects; the colony is built from it, and the first day of the
    simulation divides by zero. *)
Lemma zero_mtbf_reaches_simulation :
  exists config,
    MCSimConfig_init "CONTROL" = Ok config /\
    let bad := set_oxygenator_mtbf 0 config in
    ~ valid_config bad /\
    forall rng, step crew_size (MarsColony_init bad) rng = Raise ZeroDivisionError.
Proof.
  exists control_config. split; [reflexivity |].
  cbv zeta. split.
  - intros (_ & H & _). cbn in H. lra.
  - intros rng. unfold step.
    rewrite (step_trace_raises _ _ _ ZeroDivisionError); [reflexivity |].
    set (self := MarsColony_init (set_oxygenator_mtbf 0 control_config)).
    change (oxygenators self)
      with [Machine_init ("Oxy-" ++ Py.str 0) 7.5 0].
    apply for_each_raises. unfold oxygenator_body.
    assert (Py.leb (oxygenator_power_cost (cfg self))
                   (available_power (locals_of crew_size self rng)) = true) as ->.
    { apply leb_true. cbn [locals_of available_power].
      pose proof (power_gen_nonneg self rng) as Hgen.
      cbn in Hgen |- *. lra. }
    assert (Py.ltb (o2 self) (max_o2_tank (cfg self)) = true) as ->.
    { apply ltb_true. cbn. lra. }
    cbn [andb]. rewrite daily_check_zero_mtbf; reflexivity.
Qed.

(** C7, as the code has it.  [MCSimConfig(mode)] validates nothing and
    never fails: for every mode it returns a configuration, whose built-in
    values are valid.  A zero MTBF is met only later, by the division in
    [daily_check] of a working machine. *)
Theorem config_construction_never_fails :
  (forall mode, exists config,
      MCSimConfig_init mode = Ok config /\ valid_config config) /\
  (forall name rate rng,
      daily_check (Machine_init name rate 0) rng = Raise ZeroDivisionError).
Proof.
  split.
  - intros mode. unfold MCSimConfig_init.
    destruct (String.eqb mode "OXYGENATOR_REDUNDANCY_TEST");
      destruct (String.eqb mode "BATTERY_TEST");
      eexists; (split; [reflexivity |]);
      (split; [constructor; cbn; try lra; lia | cbn; lra]).
  - intros nm rate rng. apply daily_check_zero_mtbf; reflexivity.
Qed.

(* ================================================================== *)
(** ** A mission without crew *)
(* ================================================================== *)

Lemma grow_yields_nonneg self has_water gauss :
  0 <= fst (fst (grow self has_water gauss)) /\
  0 <= snd (fst (grow self has_water gauss)).
Proof.
  unfold grow.
  destruct (Py.leb _ 0.0); cbn [fst snd]; [lra |].
  split; apply max_lower.
Qed.

Lemma oxygenator_loop_o2_nonneg config o2_now machines rngs l machines' l' :
  Forall (fun m => 0 <= production_rate m) machines ->
  0 <= o2_produced l ->
  for_each (oxygenator_body config o2_now) machines rngs l = Ok (machines', l') ->
  Forall (fun m => 0 <= production_rate m) machines' /\ 0 <= o2_produced l'.
Proof.
  intros HQ HP Hrun.
  apply (for_each_preserves _ (fun m => 0 <= production_rate m)
           (fun x => 0 <= o2_produced x)) with (4 := Hrun); auto.
  intros m rng l0 m' l0' Hm Hl Hbody.
  apply oxygenator_body_cases in Hbody.
  destruct Hbody as [(-> & -> & _) | (p & _ & _ & Hcheck & ->)]; [auto |].
  destruct (daily_check_keeps _ _ _ _ Hcheck) as (_ & Hrate & _).
  destruct (daily_check_production _ _ _ _ Hcheck) as [-> | ->];
    cbn [charge add_o2 o2_produced]; split; lra.
Qed.

Lemma reclaimer_loop_reclaimed_nonneg config water_now machines rngs l machines' l' :
  Forall (fun m => 0 <= production_rate m) machines ->
  0 <= water_reclaimed l -> 0 <= waste l ->
  for_each (reclaimer_body config water_now) machines rngs l = Ok (machines', l') ->
  Forall (fun m => 0 <= production_rate m) machines' /\
  0 <= water_reclaimed l' /\ 0 <= waste l'.
Proof.
  intros HQ HP Hw Hrun.
  apply (for_each_preserves _ (fun m => 0 <= production_rate m)
           (fun x => 0 <= water_reclaimed x /\ 0 <= waste x))
    with (4 := Hrun); auto.
  intros m rng l0 m' l0' Hm [Hl Hw0] Hbody.
  apply reclaimer_body_cases in Hbody.
  destruct Hbody as [(-> & -> & _) | (p & _ & _ & Hcheck & ->)]; [auto |].
  destruct (daily_check_keeps _ _ _ _ Hcheck) as (_ & Hrate & _).
  cbn [charge reclaim water_reclaimed waste].
  destruct (daily_check_production _ _ _ _ Hcheck) as [-> | ->];
    (split; [lra |]); py_cases; split; lra.
Qed.

Lemma survival_check_none b o w f :
  survival_check b o w f = None -> 0 <= b.
Proof.
  unfold survival_check. destruct (Py.ltb b 0) eqn:Hb; [discriminate |].
  intros _. apply ltb_false in Hb. exact Hb.
Qed.

Lemma survival_check_supplied b o w f :
  0 <= o -> 0 <= w -> 0 <= f ->
  survival_check b o w f = None \/ survival_check b o w f = Some "Power Failure".
Proof.
  intros Ho Hw Hf. unfold survival_check.
  destruct (Py.ltb b 0); [auto |].
  assert (Py.ltb o 0 = false) as -> by (apply ltb_false; lra).
  assert (Py.ltb w 0 = false) as -> by (apply ltb_false; lra).
  assert (Py.ltb f 0 = false) as -> by (apply ltb_false; lra).
  auto.
Qed.

(** Without crew, a day keeps oxygen, water and food non-negative: only a
    power failure can be recorded. *)
Lemma step_crewless_inv config self rng self' :
  nonneg_config config ->
  crewless_inv config self ->
  step 0 self rng = Ok self' ->
  crewless_inv config self'.
Proof.
  intros Hcfg [Hc Ho2 Hw Hf Hwaste Hoxy Hrec Hdeath] Hstep.
  apply step_inv in Hstep. destruct Hstep as [t Hstep].
  rewrite <- Hc in Hcfg.
  destruct (step_trace_waste 0 self rng self' t Hcfg (Rle_refl 0) Hwaste Hstep)
    as (_ & Hw1 & _ & _ & Hwaste').
  apply step_trace_inv in Hstep.
  destruct Hstep as (oxys & l1 & recs & l2 & Hrun1 & Hrun2 & -> & ->).
  cbn [after_oxygenators] in Hw1.
  assert (0 <= o2_produced (locals_of 0 self rng)) as Hzero by (cbn; lra).
  destruct (oxygenator_loop_o2_nonneg _ _ _ _ _ _ _ Hoxy Hzero Hrun1)
    as [Hoxy' Ho2p].
  destruct (oxygenator_loop_keeps_water _ _ _ _ _ _ _ Hrun1) as [_ Hr1].
  cbn [locals_of water_reclaimed] in Hr1.
  destruct (reclaimer_loop_reclaimed_nonneg _ _ _ _ _ _ _ Hrec
              (Req_le _ _ (eq_sym Hr1)) Hw1 Hrun2) as (Hrec' & Hrecl & _).
  pose proof (reclaimer_loop_keeps_o2 _ _ _ _ _ _ _ Hrun2) as Ho2keep.
  destruct (grow_yields_nonneg (crops self) (crop_watered 0 self) (crop_gauss rng))
    as [Hfood Hcrop].
  fold (crop_yields_of 0 self rng) in Hfood, Hcrop.
  set (o2' := cap_at (max_o2_tank (cfg self)) _).
  set (water' := cap_at (max_water_tank (cfg self)) _).
  set (food' := food self + _).
  set (battery' := cap_at (max_battery (cfg self)) _).
  assert (0 <= o2') as Ho2'.
  { apply cap_at_nonneg; [exact (nn_max_o2 _ Hcfg) |]. lra. }
  assert (0 <= water') as Hwater'.
  { apply cap_at_nonneg; [exact (nn_max_water _ Hcfg) |].
    unfold water_need_of. destruct (crop_watered 0 self) eqn:Hwat.
    - apply leb_true in Hwat. lra.
    - lra. }
  assert (0 <= food') as Hfood' by (unfold food'; lra).
  constructor; cbn [cfg o2 water food waste_water oxygenators water_reclaimers];
    auto.
  unfold alive_or_power_failure. cbn [alive cause_of_death].
  destruct (survival_check_supplied battery' o2' water' food' Ho2' Hwater' Hfood')
    as [-> | ->]; [exact Hdeath | auto].
Qed.

Lemma crewless_inv_init config :
  nonneg_config config -> crewless_inv config (MarsColony_init config).
Proof.
  intros Hcfg. constructor.
  - reflexivity.
  - exact (nn_starting_o2 _ Hcfg).
  - exact (nn_starting_water _ Hcfg).
  - exact (nn_starting_food _ Hcfg).
  - cbn. lra.
  - apply Forall_map, Forall_forall. intros. exact (nn_o2_rate _ Hcfg).
  - apply Forall_map, Forall_forall. intros. exact (nn_reclamation_rate _ Hcfg).
  - left. auto.
Qed.

Section MissionLoop.

Variable crew : R.
Variable rngs0 : nat -> DayDraws.

(** A property of the colony after [i] days that every day of a living
    colony carries to day [i + 1] holds when the loop ends, on the day the
    loop ended; a colony that is still alive went through all the days. *)
Lemma mission_loop_invariant (Inv : nat -> MarsColony -> Prop) :
  (forall i self self',
      Inv i self -> alive self = true ->
      step crew self (rngs0 i) = Ok self' -> Inv (S i) self') ->
  forall n i self rngs history self' history',
    (forall k, rngs k = rngs0 (i + k)%nat) ->
    Inv i self ->
    mission_loop crew n self rngs history = Ok (self', history') ->
    exists j, (i <= j <= i + n)%nat /\ Inv j self' /\
              (alive self' = true -> j = (i + n)%nat).
Proof.
  intros Hstep n.
  induction n as [| n IH]; intros i self rngs history self' history' Hr HI Hrun.
  - cbn in Hrun. inversion Hrun; subst. exists i. repeat split; auto; lia.
  - cbn [mission_loop] in Hrun.
    destruct (alive self) eqn:Ha; cbn [negb] in Hrun.
    + destruct (step crew self (rngs 0%nat)) as [self1 | e] eqn:Hs; [| discriminate].
      cbn [Py.bind] in Hrun.
      rewrite Hr, Nat.add_0_r in Hs.
      pose proof (Hstep _ _ _ HI Ha Hs) as HI1.
      destruct (IH (S i) self1 _ _ _ _
                  (fun k => eq_trans (Hr (S k))
                              (f_equal rngs0 (Nat.add_succ_r i k)))
                  HI1 Hrun)
        as (j & Hj & HIj & Hal).
      exists j. repeat split; auto; try lia.
      intros H. specialize (Hal H). lia.
    + inversion Hrun; subst. exists i. repeat split; auto; try lia.
      intros H. congruence.
Qed.

(** The loop returns when every machine has a positive MTBF. *)
Lemma mission_loop_returns n :
  forall self rngs history,
    machines_ok self ->
    exists self' history', mission_loop crew n self rngs history = Ok (self', history').
Proof.
  induction n as [| n IH]; intros self rngs history Hok; cbn [mission_loop].
  - eauto.
  - destruct (alive self); cbn [negb]; [| eauto].
    destruct (step_returns crew self (rngs 0%nat) Hok) as (self1 & -> & Hok1).
    cbn [Py.bind]. apply IH. exact Hok1.
Qed.

End MissionLoop.

Lemma run_mission_returns crew self rngs :
  machines_ok self ->
  exists self' history,
    run_mission crew self rngs
    = Ok (self', (alive self', cause_of_death self', history)).
Proof.
  intros Hok. unfold run_mission.
  destruct (mission_loop_returns crew mission_duration self rngs [] Hok)
    as (self' & history & ->).
  cbn [Py.bind]. eauto.
Qed.

Lemma run_mission_inv crew self rngs self' survived cause history :
  run_mission crew self rngs = Ok (self', (survived, cause, history)) ->
  mission_loop crew mission_duration self rngs [] = Ok (self', history) /\
  survived = alive self' /\ cause = cause_of_death self'.
Proof.
  unfold run_mission.
  destruct (mission_loop _ _ _ _ _) as [[s h] | e]; [| discriminate].
  cbn [Py.bind]. intros H. inversion H; subst. auto.
Qed.

(** C8, as the code has it.  With crew size 0 and a configuration of
    non-negative rates, capacities and starting levels, a mission never
    records Suffocation, Dehydration or Starvation, whatever the draws: it
    ends alive with no cause, or dead of "Power Failure". *)
Theorem crewless_mission_only_dies_of_power_failure
    config rngs self' survived cause history :
  nonneg_config config ->
  run_mission 0 (MarsColony_init config) rngs
  = Ok (self', (survived, cause, history)) ->
  (survived = true /\ cause = "") \/
  (survived = false /\ cause = "Power Failure").
Proof.
  intros Hcfg Hrun.
  apply run_mission_inv in Hrun. destruct Hrun as (Hloop & -> & ->).
  destruct (mission_loop_invariant 0 rngs (fun _ => crewless_inv config)
              (fun i s s' HI _ Hs => step_crewless_inv config s (rngs i) s' Hcfg HI Hs)
              mission_duration 0%nat (MarsColony_init config) rngs [] self' history
              (fun k => eq_refl) (crewless_inv_init config Hcfg) Hloop)
    as (j & _ & HI & _).
  exact (ci_death _ _ HI).
Qed.

Lemma crewless_mission_witness :
  exists self' history,
    run_mission 0 (MarsColony_init control_config) (fun _ => storm_on_day_201 0)
    = Ok (self', (alive self', cause_of_death self', history)) /\
    ((alive self' = true /\ cause_of_death self' = "") \/
     (alive self' = false /\ cause_of_death self' = "Power Failure")).
Proof.
  destruct (run_mission_returns 0 (MarsColony_init control_config)
              (fun _ => storm_on_day_201 0) control_machines_ok)
    as (self' & history & Hrun).
  exists self', history. split; [exact Hrun |].
  exact (crewless_mission_only_dies_of_power_failure
           control_config _ _ _ _ _ control_config_nonneg Hrun).
Defined.

(* ================================================================== *)
(** ** A storm ends a mission without crew *)
(* ================================================================== *)

Section StormTransitions.

Variable self : MarsEnvironment.
Variable Ls_degrees : R.
Variable rng : StormDraw.

Lemma env_stays_calm :
  is_storming self = false -> 0.005 <= trigger_u rng ->
  snd (get_sunlight_efficiency self Ls_degrees rng) = self.
Proof.
  intros Hs Hu. unfold get_sunlight_efficiency. rewrite Hs.
  assert (Py.ltb (trigger_u rng) 0.005 = false) as -> by (apply ltb_false; lra).
  destruct (Py.ltb 200 Ls_degrees && Py.ltb Ls_degrees 300); reflexivity.
Qed.

Lemma env_storm_starts :
  is_storming self = false -> 200 < Ls_degrees < 300 -> trigger_u rng < 0.005 ->
  snd (get_sunlight_efficiency self Ls_degrees rng)
  = {| is_storming := true; storm_counter := storm_days rng |}.
Proof.
  intros Hs [Hlo Hhi] Hu. unfold get_sunlight_efficiency. rewrite Hs.
  assert (Py.ltb 200 Ls_degrees = true) as -> by (apply ltb_true; lra).
  assert (Py.ltb Ls_degrees 300 = true) as -> by (apply ltb_true; lra).
  assert (Py.ltb (trigger_u rng) 0.005 = true) as -> by (apply ltb_true; lra).
  reflexivity.
Qed.

Lemma env_storm_goes_on :
  is_storming self = true -> (1 < storm_counter self)%Z ->
  snd (get_sunlight_efficiency self Ls_degrees rng)
  = {| is_storming := true; storm_counter := storm_counter self - 1 |}.
Proof.
  intros Hs Hc. unfold get_sunlight_efficiency. rewrite Hs.
  cbn [storm_counter is_storming].
  destruct (Z.leb_spec (storm_counter self - 1) 0); [lia | reflexivity].
Qed.

End StormTransitions.

(** With non-negative machine costs the power needed only grows in the
    loops. *)
Lemma oxygenator_loop_need config o2_now machines rngs l machines' l' :
  0 <= oxygenator_power_cost config ->
  for_each (oxygenator_body config o2_now) machines rngs l = Ok (machines', l') ->
  total_power_need l <= total_power_need l'.
Proof.
  intros Hc Hrun.
  apply (for_each_preserves_locals _
           (fun x => total_power_need l <= total_power_need x))
    with (3 := Hrun); [| lra].
  intros m rng l0 m' l0' HP Hbody.
  apply oxygenator_body_cases in Hbody.
  destruct Hbody as [(_ & -> & _) | (p & _ & _ & _ & ->)]; [exact HP |].
  cbn [charge add_o2 total_power_need]. lra.
Qed.

Lemma reclaimer_loop_need config water_now machines rngs l machines' l' :
  0 <= water_reclaimer_power_cost config ->
  for_each (reclaimer_body config water_now) machines rngs l = Ok (machines', l') ->
  total_power_need l <= total_power_need l'.
Proof.
  intros Hc Hrun.
  apply (for_each_preserves_locals _
           (fun x => total_power_need l <= total_power_need x))
    with (3 := Hrun); [| lra].
  intros m rng l0 m' l0' HP Hbody.
  apply reclaimer_body_cases in Hbody.
  destruct Hbody as [(_ & -> & _) | (p & _ & _ & _ & ->)]; [exact HP |].
  cbn [charge reclaim total_power_need]. lra.
Qed.

(** What a day does to battery, environment and life of the colony. *)
Lemma step_power crew self rng self' :
  0 <= oxygenator_power_cost (cfg self) ->
  0 <= water_reclaimer_power_cost (cfg self) ->
  step crew self rng = Ok self' ->
  day self' = (day self + 1)%Z /\
  env self' = snd (get_sunlight_efficiency
                     (env self) (IZR ((day self + 1) mod 360)) (storm_draw rng)) /\
  battery self' <= max_battery (cfg self) /\
  battery self' <= battery self + power_gen_of self rng
                   - daily_base_power_consumption (cfg self) /\
  (alive self' = true -> 0 <= battery self').
Proof.
  intros Hoxy Hrec Hstep.
  apply step_inv in Hstep. destruct Hstep as [t Hstep].
  apply step_trace_inv in Hstep.
  destruct Hstep as (oxys & l1 & recs & l2 & Hrun1 & Hrun2 & _ & ->).
  cbn [day env battery alive].
  pose proof (oxygenator_loop_need _ _ _ _ _ _ _ Hoxy Hrun1) as N1.
  pose proof (reclaimer_loop_need _ _ _ _ _ _ _ Hrec Hrun2) as N2.
  cbn [locals_of total_power_need] in N1.
  set (battery_sum := battery self + (power_gen_of self rng - total_power_need l2)).
  pose proof (cap_at_le (max_battery (cfg self)) battery_sum).
  pose proof (cap_at_le_x (max_battery (cfg self)) battery_sum).
  repeat split; auto; try (unfold battery_sum in *; lra).
  destruct (survival_check _ _ _ _) eqn:Hv; [discriminate |].
  intros _. exact (survival_check_none _ _ _ _ Hv).
Qed.

(** One day of the mission drawn by [storm_on_day_201]. *)
Lemma storm_inv_step i self self' :
  storm_inv i self -> alive self = true ->
  step 0 self (storm_on_day_201 i) = Ok self' ->
  storm_inv (S i) self'.
Proof.
  intros (HI & Hday & Hal) Ha Hstep.
  destruct (Hal Ha) as (Hb & Hcalm & Hstorm & Hlt). clear Hal.
  pose proof (step_crewless_inv _ _ _ _ control_config_nonneg HI Hstep) as HI'.
  pose proof (ci_cfg _ _ HI) as Hc.
  destruct (step_power 0 self (storm_on_day_201 i) self') as
    (Hday' & Henv' & Hcap & Hbal & Hpos); try exact Hstep;
    try (rewrite Hc; cbn; lra).
  rewrite Hc in Hcap, Hbal. cbn [max_battery daily_base_power_consumption control_config]
    in Hcap, Hbal.
  split; [exact HI' |]. split; [lia |].
  intros Ha'. specialize (Hpos Ha').
  split; [lra |].
  destruct (le_lt_dec i 199) as [Hi | Hi]; [| destruct (Nat.eq_dec i 200) as [-> | Hne]].
  - (* a calm day before day 201 *)
    repeat split; try lia. intros _.
    rewrite Henv'. rewrite env_stays_calm; [apply Hcalm; lia | apply Hcalm; lia |].
    unfold storm_on_day_201. cbn [storm_draw].
    destruct (Nat.eqb_spec i 200); [lia |]. cbn. lra.
  - (* day 201: the storm is triggered *)
    repeat split; try lia.
    + rewrite Henv', Hday.
      rewrite env_storm_starts; [reflexivity | apply Hcalm; lia | | cbn; lra].
      change (IZR ((Z.of_nat 200 + 1) mod 360)) with 201. lra.
    + rewrite Henv', Hday.
      rewrite env_storm_starts; [reflexivity | apply Hcalm; lia | | cbn; lra].
      change (IZR ((Z.of_nat 200 + 1) mod 360)) with 201. lra.
    + cbn [Nat.sub INR]. lra.
  - (* a day of storm *)
    destruct Hstorm as (Hs & Hcnt & Hbat); [lia |].
    assert (power_gen_of self (storm_on_day_201 i) = 45.0 * 0.02 * 8) as Hgen.
    { unfold power_gen_of, sun_eff_of.
      rewrite (efficiency_storming _ _ _ Hs), Hc. reflexivity. }
    rewrite Hgen in Hbal.
    replace (S i - 201)%nat with (S (i - 201)) by lia.
    rewrite S_INR.
    assert (i <> 207%nat) as Hnot.
    { intros ->. cbn [Nat.sub INR] in Hbat. lra. }
    repeat split; try lia; try lra.
    + rewrite Henv'. rewrite env_storm_goes_on; [reflexivity | exact Hs | lia].
    + rewrite Henv'. rewrite env_storm_goes_on; [cbn [storm_counter]; lia | exact Hs | lia].
Qed.

Lemma storm_inv_init : storm_inv 0 (MarsColony_init control_config).
Proof.
  split; [apply crewless_inv_init, control_config_nonneg |].
  split; [reflexivity |].
  intros _. cbn. repeat split; try lra; try lia.
Qed.

(** The counterexample to C8: in mode CONTROL with crew size 0, the draws
    [storm_on_day_201] (no machine failure, a storm of 15 days triggered on
    day 201) end the mission dead of "Power Failure" within the 500
    days. *)
Lemma crewless_mission_power_failure :
  exists config self' history,
    MCSimConfig_init "CONTROL" = Ok config /\
    run_mission 0 (MarsColony_init config) storm_on_day_201
    = Ok (self', (false, "Power Failure", history)).
Proof.
  exists control_config.
  destruct (run_mission_returns 0 (MarsColony_init control_config)
              storm_on_day_201 control_machines_ok)
    as (self' & history & Hrun).
  exists self', history. split; [reflexivity |].
  rewrite Hrun.
  apply run_mission_inv in Hrun. destruct Hrun as (Hloop & _ & _).
  destruct (mission_loop_invariant 0 storm_on_day_201 storm_inv storm_inv_step
              mission_duration 0%nat _ storm_on_day_201 [] self' history
              (fun k => eq_refl) storm_inv_init Hloop)
    as (j & _ & (HI & _ & Hal) & Hend).
  destruct (alive self') eqn:Ha.
  - specialize (Hend eq_refl). destruct (Hal eq_refl) as (_ & _ & _ & Hlt).
    unfold mission_duration in Hend. lia.
  - destruct (ci_death _ _ HI) as [[Hx _] | [_ ->]]; [congruence | reflexivity].
Qed.

(* ================================================================== *)
(** ** CropModule: health and yields of one call *)
(* ================================================================== *)

Lemma grow_health_bounds self has_water gauss :
  0 <= health (snd (grow self has_water gauss)) <= 1.
Proof.
  unfold grow.
  destruct has_water; cbn [negb health set_health base_food base_o2];
    destruct (Py.leb _ 0.0) eqn:Hdead;
    cbn [fst snd health set_health base_food base_o2]; try lra;
    py_cases; lra.
Qed.

(** X1.  Whatever health the module had and whatever the draw, after [grow]
    the health is in [0, 1], both yields are non-negative, a health of 0
    comes with yields (0, 0), and the base yields are unchanged. *)
Theorem grow_health_in_range self has_water gauss :
  let yields := fst (grow self has_water gauss) in
  let self' := snd (grow self has_water gauss) in
  0 <= health self' <= 1 /\
  0 <= fst yields /\ 0 <= snd yields /\
  (health self' = 0 -> yields = (0.0, 0.0)) /\
  base_food self' = base_food self /\ base_o2 self' = base_o2 self.
Proof.
  cbv zeta. unfold grow.
  destruct has_water; cbn [negb health set_health base_food base_o2];
    destruct (Py.leb _ 0.0) eqn:Hdead;
    cbn [fst snd health set_health base_food base_o2];
    try (repeat split; try lra; auto; fail);
    apply leb_false in Hdead;
    (repeat split; auto; try apply max_lower; try (intros; exfalso; lra));
    py_cases; lra.
Qed.

(** X2.  With non-negative base yields, each yield is the base yield times
    the health after the call times a factor between 0.8 and 1.2. *)
Theorem grow_yields_within_variability self has_water gauss :
  0 <= base_food self -> 0 <= base_o2 self ->
  let yields := fst (grow self has_water gauss) in
  let h := health (snd (grow self has_water gauss)) in
  0.8 * (base_food self * h) <= fst yields <= 1.2 * (base_food self * h) /\
  0.8 * (base_o2 self * h) <= snd yields <= 1.2 * (base_o2 self * h).
Proof.
  intros Hf Ho. cbv zeta.
  pose proof (grow_health_bounds self has_water gauss) as Hh.
  revert Hh. unfold grow.
  destruct has_water; cbn [negb health set_health base_food base_o2];
    (destruct (Py.leb _ 0.0) eqn:Hdead;
     cbn [fst snd health set_health base_food base_o2]; intros Hh; [lra |]);
    apply leb_false in Hdead;
    match goal with
    | |- context [Py.max 0.0 (Py.min 1.0 ?x)] =>
        set (h := Py.max 0.0 (Py.min 1.0 x)) in *
    end;
    assert (0.8 <= Py.max 0.8 (Py.min 1.2 gauss) <= 1.2) as Hbio
      by (py_cases; lra);
    set (bio := Py.max 0.8 (Py.min 1.2 gauss)) in *;
    assert (0 <= base_food self * h) as Hfh by nra;
    assert (0 <= base_o2 self * h) as Hoh by nra;
    assert (base_food self * bio * h = bio * (base_food self * h)) as -> by ring;
    assert (base_o2 self * bio * h = bio * (base_o2 self * h)) as -> by ring;
    assert (0 <= bio * (base_food self * h)) by nra;
    assert (0 <= bio * (base_o2 self * h)) by nra;
    unfold Py.max, Py.ltb;
    repeat match goal with
      | |- context [Rlt_dec ?a ?b] => destruct (Rlt_dec a b)
      end; nra.
Qed.

Lemma grow_yields_witness :
  let self := CropModule_init 30000.0 1.0 in
  let yields := fst (grow self true 1.0) in
  let h := health (snd (grow self true 1.0)) in
  0.8 * (30000.0 * h) <= fst yields <= 1.2 * (30000.0 * h) /\
  0.8 * (1.0 * h) <= snd yields <= 1.2 * (1.0 * h).
Proof.
  intros self.
  apply (grow_yields_within_variability self true 1.0); cbn; lra.
Defined.

(* ================================================================== *)
(** ** MarsEnvironment: the course of a storm *)
(* ================================================================== *)

Lemma env_storm_ends self Ls_degrees rng :
  is_storming self = true -> (storm_counter self <= 1)%Z ->
  snd (get_sunlight_efficiency self Ls_degrees rng)
  = {| is_storming := false; storm_counter := storm_counter self - 1 |}.
Proof.
  intros Hs Hc. unfold get_sunlight_efficiency. rewrite Hs.
  cbn [storm_counter is_storming].
  destruct (Z.leb_spec (storm_counter self - 1) 0); [reflexivity | lia].
Qed.

Lemma sunlight_pair self Ls_degrees rng :
  get_sunlight_efficiency self Ls_degrees rng
  = (fst (get_sunlight_efficiency self Ls_degrees rng),
     snd (get_sunlight_efficiency self Ls_degrees rng)).
Proof. apply surjective_pairing. Qed.

(** X3.  A storm with N >= 1 days left holds the efficiency at the floor
    0.02 for exactly the next N calls, whatever the season angles and the
    draws (no new storm is drawn meanwhile), and the N-th call leaves the
    environment calm with a counter of 0. *)
Theorem storm_runs_its_course (n : nat) :
  forall (self : MarsEnvironment) (calls : list (R * StormDraw)),
    (1 <= n)%nat ->
    is_storming self = true ->
    storm_counter self = Z.of_nat n ->
    List.length calls = n ->
    sunlight_calls self calls
    = (repeat 0.02 n, {| is_storming := false; storm_counter := 0 |}).
Proof.
  induction n as [| k IH]; intros self calls Hn Hs Hc Hlen; [lia |].
  destruct calls as [| [Ls rng] rest]; [discriminate |].
  injection Hlen as Hlen.
  cbn [sunlight_calls]. rewrite (sunlight_pair self Ls rng).
  rewrite (efficiency_storming Ls rng self Hs).
  destruct k as [| k'].
  - destruct rest; [| discriminate].
    rewrite (env_storm_ends self Ls rng Hs) by lia.
    cbn [sunlight_calls repeat]. rewrite Hc. reflexivity.
  - rewrite (env_storm_goes_on self Ls rng Hs) by lia.
    rewrite (IH _ rest); [reflexivity | lia | reflexivity | | exact Hlen].
    cbn [storm_counter]. lia.
Qed.

Lemma storm_runs_its_course_witness :
  sunlight_calls {| is_storming := true; storm_counter := 2 |}
                 [(250, {| trigger_u := 0.001; storm_days := 9 |});
                  (251, {| trigger_u := 0.001; storm_days := 9 |})]
  = ([0.02; 0.02], {| is_storming := false; storm_counter := 0 |}).
Proof.
  apply (storm_runs_its_course 2); [lia | reflexivity | reflexivity | reflexivity].
Defined.

(** X4.  [storm_counter] is 0 whenever [is_storming] is False and at least
    1 whenever it is True: the invariant holds for a new environment and
    every call keeps it, provided the drawn storm length is at least 1 (as
    [randint(5, 15)] is).  The code never resets the counter: it reaches 0
    by counting down. *)
Theorem env_invariant_preserved self Ls_degrees rng :
  env_inv self -> (1 <= storm_days rng)%Z ->
  env_inv MarsEnvironment_init /\
  env_inv (snd (get_sunlight_efficiency self Ls_degrees rng)).
Proof.
  intros Hinv Hdays. split; [reflexivity |].
  unfold env_inv in *. destruct (is_storming self) eqn:Hs.
  - destruct (Z_lt_le_dec 1 (storm_counter self)) as [Hc | Hc].
    + rewrite (env_storm_goes_on self Ls_degrees rng Hs Hc). cbn. lia.
    + rewrite (env_storm_ends self Ls_degrees rng Hs Hc). cbn. lia.
  - unfold get_sunlight_efficiency. rewrite Hs.
    destruct (Py.ltb 200 Ls_degrees && Py.ltb Ls_degrees 300);
      [destruct (Py.ltb (trigger_u rng) 0.005) |];
      cbn [snd is_storming storm_counter]; try rewrite Hs; auto.
Qed.

Lemma env_invariant_witness :
  env_inv MarsEnvironment_init /\
  env_inv (snd (get_sunlight_efficiency MarsEnvironment_init 201
                  {| trigger_u := 0.001; storm_days := 15 |})).
Proof.
  apply env_invariant_preserved; [reflexivity | cbn; lia].
Defined.

(** X5.  From calm weather a call starts a storm exactly when the season
    angle is strictly between 200 and 300 and the trigger draw is below
    0.005; the storm then has the drawn number of days, and in every other
    case the environment is unchanged. *)
Theorem storm_starts_only_in_window counter Ls_degrees rng :
  let calm := {| is_storming := false; storm_counter := counter |} in
  let after := snd (get_sunlight_efficiency calm Ls_degrees rng) in
  (is_storming after = true <->
   200 < Ls_degrees < 300 /\ trigger_u rng < 0.005) /\
  (is_storming after = true -> storm_counter after = storm_days rng) /\
  (is_storming after = false -> after = calm).
Proof.
  cbv zeta. unfold get_sunlight_efficiency. cbn [is_storming].
  destruct (Py.ltb 200 Ls_degrees) eqn:H1;
    destruct (Py.ltb Ls_degrees 300) eqn:H2;
    destruct (Py.ltb (trigger_u rng) 0.005) eqn:H3;
    cbn [andb snd is_storming storm_counter];
    try apply ltb_true in H1; try apply ltb_false in H1;
    try apply ltb_true in H2; try apply ltb_false in H2;
    try apply ltb_true in H3; try apply ltb_false in H3;
    repeat split; intros; auto; try discriminate; try lra;
    match goal with H : _ /\ _ |- _ => destruct H; lra end.
Qed.

(** [1/e >= 0.36], by five squarings of [e^x >= 1 + x] at [x = -1/32]. *)
Lemma exp_neg_one_lower : 0.36 <= exp (- (1)).
Proof.
  pose proof (exp_ineq1_le (-1 / 32)) as H1.
  pose proof (exp_double (-1 / 32)) as E2.
  pose proof (exp_double (2 * (-1 / 32))) as E4.
  pose proof (exp_double (2 * (2 * (-1 / 32)))) as E8.
  pose proof (exp_double (2 * (2 * (2 * (-1 / 32))))) as E16.
  pose proof (exp_double (2 * (2 * (2 * (2 * (-1 / 32)))))) as E32.
  replace (2 * (2 * (2 * (2 * (2 * (-1 / 32)))))) with (- (1)) in E32 by lra.
  set (a1 := exp (-1 / 32)) in *.
  set (a2 := exp (2 * (-1 / 32))) in *.
  set (a4 := exp (2 * (2 * (-1 / 32)))) in *.
  set (a8 := exp (2 * (2 * (2 * (-1 / 32))))) in *.
  set (a16 := exp (2 * (2 * (2 * (2 * (-1 / 32)))))) in *.
  assert (0.9384 <= a2) by nra.
  assert (0.8805 <= a4) by nra.
  assert (0.7752 <= a8) by nra.
  assert (0.6009 <= a16) by nra.
  nra.
Qed.

(** [e^-0.3 <= 0.75], by two squarings of [e^x >= 1 + x] at [x = 0.075]. *)
Lemma exp_clear_sky_upper : exp (- (0.3)) <= 0.75.
Proof.
  pose proof (exp_ineq1_le (0.3 / 4)) as H1.
  pose proof (exp_double (0.3 / 4)) as E2.
  pose proof (exp_double (2 * (0.3 / 4))) as E4.
  replace (2 * (2 * (0.3 / 4))) with 0.3 in E4 by lra.
  set (a1 := exp (0.3 / 4)) in *.
  set (a2 := exp (2 * (0.3 / 4))) in *.
  assert (1.155 <= a2) by nra.
  assert (1.334 <= exp 0.3) by nra.
  rewrite (exp_neg_inv 0.3).
  assert (/ exp 0.3 <= / 1.334) by (apply Rinv_le_contravar; lra).
  lra.
Qed.

Lemma efficiency_calm_bounds self Ls_degrees rng :
  is_storming self = false ->
  0.36 <= fst (get_sunlight_efficiency self Ls_degrees rng) <= 0.75.
Proof.
  intros Hs.
  destruct (efficiency_calm Ls_degrees rng self Hs) as [-> _].
  pose proof (tau_base_bounds (Py.radians Ls_degrees)) as [Hlo Hhi].
  set (tau := 0.65 - 0.35 * sin (Py.radians Ls_degrees)) in *.
  replace (tau + 0.0) with tau by lra.
  pose proof (exp_neg_antitone tau 1) as H1.
  pose proof (exp_neg_antitone 0.3 tau) as H2.
  pose proof exp_neg_one_lower. pose proof exp_clear_sky_upper.
  split; [apply Rle_trans with (exp (- (1))); [assumption | apply H1; lra]
         | apply Rle_trans with (exp (- (0.3))); [apply H2; lra | assumption]].
Qed.

(** X6.  On a call without an active storm (the call that triggers a storm
    included) the efficiency is between 0.36 and 0.75, whatever the season
    angle and the draws: above the storm value 0.02 by a factor of 18 at
    least. *)
Theorem calm_efficiency_bounds counter Ls_degrees rng :
  0.36 <= fst (get_sunlight_efficiency
                 {| is_storming := false; storm_counter := counter |}
                 Ls_degrees rng) <= 0.75.
Proof. apply efficiency_calm_bounds. reflexivity. Qed.

(* ================================================================== *)
(** ** Machine: production and failure probability *)
(* ================================================================== *)

(** X7.  A call of [daily_check] that returns produces either 0.0 or the
    nominal rate; it produces the nominal rate only from a working machine,
    which it leaves unchanged; name, rate and MTBF never change. *)
Theorem daily_check_output m rng p m' :
  daily_check m rng = Ok (p, m') ->
  (p = 0.0 \/ (p = production_rate m /\ is_broken m = false /\ m' = m)) /\
  same_machine m m'.
Proof.
  intros H. unfold same_machine.
  apply daily_check_cases in H.
  destruct H as [H | [H | [H | H]]]; decompose [and] H; subst; auto 7.
Qed.

Lemma daily_check_output_witness :
  let m := set_repair true 1 (Machine_init "Oxy-0" 7.5 120) in
  let m' := set_repair false 0 m in
  (0.0 = 0.0 \/ (0.0 = production_rate m /\ is_broken m = false /\ m' = m)) /\
  same_machine m m'.
Proof.
  intros m m'.
  apply (daily_check_output m quiet_machine 0.0 m'). reflexivity.
Defined.

Lemma exp_gt_1 x : 0 < x -> 1 < exp x.
Proof. intros H. rewrite <- exp_0. apply exp_increasing. exact H. Qed.

Lemma exp_lt_1 x : x < 0 -> exp x < 1.
Proof. intros H. rewrite <- exp_0. apply exp_increasing. exact H. Qed.

(** X8.  With a positive MTBF the daily failure probability is computed
    without error (no division by zero, no overflow of [math.exp]); it is
    a finite number between 0 and 1, and it is 1 when the MTBF is so small
    that the quotient [-1 / mtbf] is minus infinity. *)
Theorem fail_prob_of_positive_mtbf m :
  0 < mtbf m ->
  exists p,
    fail_prob m = Ok (Py.finite p) /\ 0 <= p <= 1 /\
    (-1 / mtbf m < - Py.float_max -> p = 1).
Proof.
  intros H. rewrite (fail_prob_defined m H).
  eexists. split; [reflexivity |].
  pose proof (exp_pos (-1 / mtbf m)).
  pose proof (exp_lt_1 _ (neg_one_over_pos _ H)).
  destruct (Rlt_dec (-1 / mtbf m) (- Py.float_max)); split; lra.
Qed.

Lemma fail_prob_witness :
  exists p,
    fail_prob (Machine_init "Oxy-0" 7.5 120) = Ok (Py.finite p) /\
    0 <= p <= 1 /\
    (-1 / 120 < - Py.float_max -> p = 1).
Proof.
  apply (fail_prob_of_positive_mtbf (Machine_init "Oxy-0" 7.5 120)). cbn. lra.
Defined.

Lemma neg_one_over_small x : x <= -0.0015 -> 0 < -1 / x <= 667.
Proof.
  intros H. assert (x < 0) as Hx by lra.
  pose proof (neg_one_over_neg x Hx) as Hq.
  assert (-1 / x * x = -1) as Hm by (field; lra).
  split; [exact Hq |]. nra.
Qed.

Lemma neg_one_over_tiny x : -0.0014 <= x <= -1e-300 -> 714 < -1 / x <= 1e300.
Proof.
  intros [Hlo Hhi]. assert (x < 0) as Hx by lra.
  pose proof (neg_one_over_neg x Hx) as Hq.
  assert (-1 / x * x = -1) as Hm by (field; lra).
  split; nra.
Qed.

Lemma neg_one_over_subnormal x : -1e-310 <= x < 0 -> 1e309 < -1 / x.
Proof.
  intros [Hlo Hx].
  pose proof (neg_one_over_neg x Hx) as Hq.
  assert (-1 / x * x = -1) as Hm by (field; lra).
  nra.
Qed.

Lemma failure_never_fires_negative_mtbf m rng :
  mtbf m <= -0.0015 -> 0 <= failure_u rng -> failure_fires m rng = Ok false.
Proof.
  intros Hm Hu. unfold failure_fires, fail_prob.
  destruct (neg_one_over_small _ Hm) as [Hq Hq'].
  pose proof float_max_large.
  rewrite div_ok by lra. cbn [Py.bind].
  rewrite overflow_finite by lra.
  rewrite math_exp_ok by (unfold Py.exp_max; lra).
  cbn [Py.bind Py.sub_from Py.lt_float].
  pose proof (exp_gt_1 _ Hq).
  assert (Py.ltb (failure_u rng) (1 - exp (-1 / mtbf m)) = false) as ->
    by (apply ltb_false; lra).
  reflexivity.
Qed.

(** X9.  A negative MTBF is not rejected, and a working machine that has
    one never fails.  With an MTBF of -0.0015 or below the failure
    probability is negative: every call whose [random.random()] draw is
    non-negative returns the nominal rate and leaves the machine unchanged.
    With an MTBF between -0.0014 and -1e-300, [math.exp(-1 / mtbf)]
    overflows and every call raises OverflowError.  With an MTBF between
    -1e-310 and 0 the quotient is already infinite, the failure probability
    is minus infinity, and every call returns the nominal rate. *)
Theorem negative_mtbf_never_fails m :
  is_broken m = false ->
  (mtbf m <= -0.0015 ->
   forall rngs,
     Forall (fun rng => 0 <= failure_u rng) rngs ->
     daily_checks m rngs
     = Ok (repeat (production_rate m) (List.length rngs), m)) /\
  (-0.0014 <= mtbf m <= -1e-300 ->
   forall rng, daily_check m rng = Raise OverflowError) /\
  (-1e-310 <= mtbf m < 0 ->
   forall rng, daily_check m rng = Ok (production_rate m, m)).
Proof.
  intros Hb. split; [| split].
  - intros Hm rngs Hu.
    induction Hu as [| rng rest Hrng Hrest IH]; [reflexivity |].
    cbn [daily_checks List.length repeat].
    rewrite (daily_check_working m rng Hb
               (failure_never_fires_negative_mtbf m rng Hm Hrng)).
    cbn [Py.bind]. rewrite IH. reflexivity.
  - intros Hm rng. unfold daily_check, failure_fires, fail_prob.
    rewrite Hb. rewrite div_ok by lra. cbn [Py.bind].
    destruct (neg_one_over_tiny _ Hm) as [Hq Hq'].
    pose proof float_max_large.
    rewrite overflow_finite by lra.
    rewrite math_exp_overflow; [reflexivity |].
    unfold Py.exp_max. lra.
  - intros Hm rng. unfold daily_check, failure_fires, fail_prob.
    rewrite Hb. rewrite div_ok by lra. cbn [Py.bind].
    pose proof (neg_one_over_subnormal _ Hm) as Hq.
    pose proof float_max_bounded.
    rewrite overflow_inf by lra. reflexivity.
Qed.

Lemma negative_mtbf_witness :
  let m := Machine_init "Oxy-0" 7.5 (-120) in
  daily_checks m [quiet_machine; quiet_machine] = Ok ([7.5; 7.5], m).
Proof.
  intros m.
  apply (proj1 (negative_mtbf_never_fails m eq_refl)).
  - cbn. lra.
  - repeat constructor; cbn; lra.
Defined.

(* ================================================================== *)
(** ** [step]: idle machines, verdict of the day *)
(* ================================================================== *)

Lemma for_each_idle body machines :
  (forall m rng l, body m rng l = Ok (m, l)) ->
  forall rngs l, for_each body machines rngs l = Ok (machines, l).
Proof.
  intros Hbody. induction machines as [| m rest IH]; intros rngs l.
  - reflexivity.
  - cbn [for_each]. rewrite Hbody. cbn [Py.bind]. rewrite IH. reflexivity.
Qed.

Lemma oxygenator_body_full config o2_now oxy rng l :
  max_o2_tank config <= o2_now ->
  oxygenator_body config o2_now oxy rng l = Ok (oxy, l).
Proof.
  intros H. unfold oxygenator_body.
  assert (Py.ltb o2_now (max_o2_tank config) = false) as ->
    by (apply ltb_false; exact H).
  rewrite andb_false_r. reflexivity.
Qed.

Lemma reclaimer_body_full config water_now water_rec rng l :
  max_water_tank config <= water_now ->
  reclaimer_body config water_now water_rec rng l = Ok (water_rec, l).
Proof.
  intros H. unfold reclaimer_body.
  assert (Py.ltb water_now (max_water_tank config) = false) as ->
    by (apply ltb_false; exact H).
  rewrite andb_false_r. reflexivity.
Qed.

(** X10.  On a day that starts with a full oxygen tank no oxygenator is
    checked: the oxygenators are exactly as before, broken ones with the
    same repair days left, and no oxygen is produced by machines.  Likewise
    a full water tank leaves the reclaimers as they are, reclaims nothing,
    and the day's waste water stays in the waste tank. *)
Theorem full_tanks_idle_machines crew self rng self' t :
  step_trace crew self rng = Ok (self', t) ->
  (max_o2_tank (cfg self) <= o2 self ->
   oxygenators self' = oxygenators self /\
   o2_produced (after_reclaimers t) = 0) /\
  (max_water_tank (cfg self) <= water self ->
   water_reclaimers self' = water_reclaimers self /\
   water_reclaimed (after_reclaimers t) = 0 /\
   waste_water self'
   = waste_water self
     + water_need_of crew self * water_recycle_efficiency (cfg self)).
Proof.
  intros H. apply step_trace_inv in H.
  destruct H as (oxys & l1 & recs & l2 & Hrun1 & Hrun2 & -> & ->).
  cbn [oxygenators water_reclaimers after_reclaimers waste_water].
  split.
  - intros Hfull.
    rewrite (for_each_idle _ _ (fun m r l => oxygenator_body_full _ _ m r l Hfull))
      in Hrun1.
    inversion Hrun1; subst.
    rewrite (reclaimer_loop_keeps_o2 _ _ _ _ _ _ _ Hrun2). auto.
  - intros Hfull.
    rewrite (for_each_idle _ _ (fun m r l => reclaimer_body_full _ _ m r l Hfull))
      in Hrun2.
    inversion Hrun2; subst.
    destruct (oxygenator_loop_keeps_water _ _ _ _ _ _ _ Hrun1) as [-> ->].
    auto.
Qed.

Lemma full_tanks_colony_ok : machines_ok full_tanks_colony.
Proof. split; repeat constructor; cbn; lra. Qed.

Lemma full_tanks_idle_witness :
  exists self' t,
    step_trace crew_size full_tanks_colony (storm_on_day_201 10) = Ok (self', t) /\
    oxygenators self' = [set_repair true 2 (Machine_init "Oxy-0" 7.5 120)] /\
    o2_produced (after_reclaimers t) = 0 /\
    water_reclaimers self' = [set_repair true 3 (Machine_init "WaterRec-0" 30.0 120)] /\
    water_reclaimed (after_reclaimers t) = 0.
Proof.
  destruct (step_trace_returns crew_size full_tanks_colony (storm_on_day_201 10)
              full_tanks_colony_ok) as (self' & t & Hstep & _).
  exists self', t. split; [exact Hstep |].
  destruct (full_tanks_idle_machines _ _ _ _ _ Hstep) as [Ho Hw].
  destruct Ho as [Ho1 Ho2]; [cbn; lra |].
  destruct Hw as (Hw1 & Hw2 & _); [cbn; lra |].
  auto.
Defined.

Lemma survival_check_cases b o w f :
  (survival_check b o w f = None /\ 0 <= b /\ 0 <= o /\ 0 <= w /\ 0 <= f) \/
  (survival_check b o w f = Some "Power Failure" /\ b < 0) \/
  (survival_check b o w f = Some "Suffocation" /\ 0 <= b /\ o < 0) \/
  (survival_check b o w f = Some "Dehydration" /\ 0 <= b /\ 0 <= o /\ w < 0) \/
  (survival_check b o w f = Some "Starvation" /\
   0 <= b /\ 0 <= o /\ 0 <= w /\ f < 0).
Proof.
  unfold survival_check.
  destruct (Py.ltb b 0) eqn:Hb;
    [apply ltb_true in Hb; auto | apply ltb_false in Hb].
  destruct (Py.ltb o 0) eqn:Ho;
    [apply ltb_true in Ho; auto 6 | apply ltb_false in Ho].
  destruct (Py.ltb w 0) eqn:Hw;
    [apply ltb_true in Hw; auto 8 | apply ltb_false in Hw].
  destruct (Py.ltb f 0) eqn:Hf;
    [apply ltb_true in Hf; auto 10 | apply ltb_false in Hf].
  auto 10.
Qed.

(** X11.  The verdict of a day follows the stocks after the update, in the
    order battery, oxygen, water, food: no cause exactly when all four are
    non-negative, otherwise the cause of the first negative one.  A cause
    makes the colony dead with that cause recorded; a colony that is alive
    after the day was alive before it and has four non-negative stocks. *)
Theorem verdict_follows_stocks crew self rng self' t :
  step_trace crew self rng = Ok (self', t) ->
  (death t = None <->
   0 <= battery self' /\ 0 <= o2 self' /\ 0 <= water self' /\ 0 <= food self') /\
  (death t = Some "Power Failure" <-> battery self' < 0) /\
  (death t = Some "Suffocation" <-> 0 <= battery self' /\ o2 self' < 0) /\
  (death t = Some "Dehydration" <->
   0 <= battery self' /\ 0 <= o2 self' /\ water self' < 0) /\
  (death t = Some "Starvation" <->
   0 <= battery self' /\ 0 <= o2 self' /\ 0 <= water self' /\ food self' < 0) /\
  (forall cause, death t = Some cause ->
                 In cause causes /\ alive self' = false /\
                 cause_of_death self' = cause) /\
  (alive self' = true -> alive self = true /\ death t = None).
Proof.
  intros H. apply step_trace_inv in H.
  destruct H as (oxys & l1 & recs & l2 & _ & _ & -> & ->).
  cbn [death battery o2 water food alive cause_of_death].
  match goal with
  | |- context [survival_check ?b ?o ?w ?f] =>
      destruct (survival_check_cases b o w f) as [Hc | [Hc | [Hc | [Hc | Hc]]]];
      destruct Hc as [-> Hc]; set (b' := b) in *; set (o' := o) in *;
      set (w' := w) in *; set (f' := f) in *
  end;
    (repeat split; intros; try discriminate; try lra; auto;
     try match goal with
       | H : Some _ = Some _ |- _ => inversion H; subst; unfold causes; cbn; auto 6
       | H : false = true |- _ => discriminate H
       end).
Qed.

Lemma verdict_follows_stocks_witness :
  exists self' t,
    step_trace crew_size (MarsColony_init control_config) (storm_on_day_201 0)
    = Ok (self', t) /\
    (death t = None <->
     0 <= battery self' /\ 0 <= o2 self' /\ 0 <= water self' /\ 0 <= food self').
Proof.
  destruct (step_trace_returns crew_size (MarsColony_init control_config)
              (storm_on_day_201 0) control_machines_ok)
    as (self' & t & Hstep & _).
  exists self', t. split; [exact Hstep |].
  exact (proj1 (verdict_follows_stocks _ _ _ _ _ Hstep)).
Defined.

(** X12.  Death is final: [step] never sets [alive] back to True, and
    [run_mission] on a dead colony runs no day: it returns at once, with the
    colony unchanged, the recorded cause and an empty history. *)
Theorem dead_colony_stays_dead crew self :
  alive self = false ->
  (forall rng self', step crew self rng = Ok self' -> alive self' = false) /\
  (forall rngs,
      run_mission crew self rngs = Ok (self, (false, cause_of_death self, []))).
Proof.
  intros Hdead. split.
  - intros rng self' H. apply step_inv in H. destruct H as [t H].
    apply step_trace_inv in H.
    destruct H as (oxys & l1 & recs & l2 & _ & _ & _ & ->).
    cbn [alive]. destruct (survival_check _ _ _ _); [reflexivity | exact Hdead].
  - intros rngs. unfold run_mission, mission_duration.
    cbn [mission_loop]. rewrite Hdead. cbn [negb Py.bind]. rewrite Hdead.
    reflexivity.
Qed.

Lemma dead_colony_witness :
  let self :=
    {| cfg := control_config; day := 208; alive := false;
       cause_of_death := "Power Failure";
       o2 := 50.0; water := 940.0; waste_water := 0.0; battery := -62.6;
       food := 50000.0; env := {| is_storming := true; storm_counter := 8 |};
       crops := CropModule_init 30000.0 1.0;
       oxygenators := []; water_reclaimers := [] |} in
  (forall rng self', step crew_size self rng = Ok self' -> alive self' = false) /\
  (forall rngs,
      run_mission crew_size self rngs = Ok (self, (false, "Power Failure", []))).
Proof.
  intros self. apply (dead_colony_stays_dead crew_size self). reflexivity.
Defined.

(* ================================================================== *)
(** ** [run_mission]: the trajectory and the returned cause *)
(* ================================================================== *)

Lemma step_day crew self rng self' :
  step crew self rng = Ok self' -> day self' = (day self + 1)%Z.
Proof.
  intros H. apply step_inv in H. destruct H as [t H].
  apply step_trace_inv in H.
  destruct H as (oxys & l1 & recs & l2 & _ & _ & _ & ->). reflexivity.
Qed.

(** What the loop appends to the history. *)
Lemma mission_loop_history crew n :
  forall self rngs history self' history',
    mission_loop crew n self rngs history = Ok (self', history') ->
    exists days,
      history' = (history ++ days)%list /\
      (List.length days <= n)%nat /\
      day self' = (day self + Z.of_nat (List.length days))%Z /\
      map snap_day days
      = map (fun k => (day self + 1 + Z.of_nat k)%Z) (seq 0 (List.length days)) /\
      last days (snapshot self) = snapshot self' /\
      (alive self' = true -> List.length days = n).
Proof.
  induction n as [| n IH]; intros self rngs history self' history' Hrun.
  - cbn in Hrun. inversion Hrun; subst. exists [].
    rewrite app_nil_r. cbn. repeat split; auto; lia.
  - cbn [mission_loop] in Hrun.
    destruct (alive self) eqn:Ha; cbn [negb] in Hrun.
    + destruct (step crew self (rngs 0%nat)) as [self1 | e] eqn:Hs; [| discriminate].
      cbn [Py.bind] in Hrun.
      pose proof (step_day _ _ _ _ Hs) as Hd.
      destruct (IH _ _ _ _ _ Hrun) as (days & -> & Hlen & Hday & Hmap & Hlast & Hal).
      exists (snapshot self1 :: days).
      rewrite <- app_assoc. cbn [app List.length].
      repeat split; auto; try lia.
      * cbn [seq map snap_day snapshot]. rewrite <- seq_shift, map_map.
        rewrite Hmap, Hd. f_equal; [lia |].
        apply map_ext. intros k. lia.
      * destruct days as [| d ds]; [exact Hlast |].
        cbn [last] in *. rewrite <- Hlast.
        clear. revert d. induction ds as [| x xs IHx]; intros d; [reflexivity |].
        cbn [last]. apply IHx.
    + inversion Hrun; subst. exists []. rewrite app_nil_r. cbn.
      repeat split; auto; try lia. intros H. congruence.
Qed.

(** X13.  [run_mission] returns the [alive] flag and the cause of the colony
    as it leaves it, and one history entry per day it ran: at most 500, the
    entries carry consecutive days, the last entry is the final state of
    the colony, the day counter advanced by the length of the history, and
    a colony that survived ran all 500 days. *)
Theorem run_mission_trajectory crew self rngs self' survived cause history :
  run_mission crew self rngs = Ok (self', (survived, cause, history)) ->
  survived = alive self' /\ cause = cause_of_death self' /\
  (List.length history <= mission_duration)%nat /\
  day self' = (day self + Z.of_nat (List.length history))%Z /\
  map snap_day history
  = map (fun k => (day self + 1 + Z.of_nat k)%Z) (seq 0 (List.length history)) /\
  last history (snapshot self) = snapshot self' /\
  (survived = true -> List.length history = mission_duration).
Proof.
  intros H. apply run_mission_inv in H. destruct H as (Hloop & -> & ->).
  destruct (mission_loop_history _ _ _ _ _ _ _ Hloop)
    as (days & Heq & Hlen & Hday & Hmap & Hlast & Hal).
  cbn [app] in Heq. subst days. auto 8.
Qed.

Lemma run_mission_trajectory_witness :
  exists self' history,
    run_mission crew_size (MarsColony_init control_config) storm_on_day_201
    = Ok (self', (alive self', cause_of_death self', history)) /\
    (List.length history <= mission_duration)%nat /\
    day self' = Z.of_nat (List.length history) /\
    last history (snapshot (MarsColony_init control_config)) = snapshot self'.
Proof.
  destruct (run_mission_returns crew_size (MarsColony_init control_config)
              storm_on_day_201 control_machines_ok)
    as (self' & history & Hrun).
  exists self', history. split; [exact Hrun |].
  destruct (run_mission_trajectory _ _ _ _ _ _ _ Hrun)
    as (_ & _ & Hlen & Hday & _ & Hlast & _).
  auto.
Defined.

Lemma step_cause_inv crew self rng self' :
  cause_inv self -> step crew self rng = Ok self' -> cause_inv self'.
Proof.
  intros Hinv H. apply step_inv in H. destruct H as [t H].
  apply step_trace_inv in H.
  destruct H as (oxys & l1 & recs & l2 & _ & _ & _ & ->).
  unfold cause_inv. cbn [alive cause_of_death].
  match goal with
  | |- context [survival_check ?b ?o ?w ?f] =>
      destruct (survival_check_cases b o w f) as [Hc | [Hc | [Hc | [Hc | Hc]]]];
      destruct Hc as [-> _]
  end; [exact Hinv | | | |]; right; unfold causes; cbn; auto 6.
Qed.

Lemma run_mission_cause_inv crew self rngs self' survived cause history :
  cause_inv self ->
  run_mission crew self rngs = Ok (self', (survived, cause, history)) ->
  (survived = true /\ cause = "") \/ (survived = false /\ In cause causes).
Proof.
  intros Hinv Hrun.
  apply run_mission_inv in Hrun. destruct Hrun as (Hloop & -> & ->).
  destruct (mission_loop_invariant crew rngs (fun _ => cause_inv)
              (fun i s s' HI _ Hs => step_cause_inv crew s (rngs i) s' HI Hs)
              mission_duration 0%nat self rngs [] self' history
              (fun k => eq_refl) Hinv Hloop)
    as (j & _ & HI & _).
  exact HI.
Qed.

Lemma cause_inv_init config : cause_inv (MarsColony_init config).
Proof. left. split; reflexivity. Qed.

Lemma mission_inv_step crew i self rng self' :
  mission_inv i self -> alive self = true ->
  step crew self rng = Ok self' -> mission_inv (S i) self'.
Proof.
  intros [Hday Hst] Ha Hstep.
  split; [rewrite (step_day _ _ _ _ Hstep); lia |].
  destruct Hst as [(_ & Hcause & _) | (Hdead & _)]; [| congruence].
  apply step_inv in Hstep. destruct Hstep as [t Hstep].
  apply step_trace_inv in Hstep.
  destruct Hstep as (oxys & l1 & recs & l2 & _ & _ & _ & ->).
  unfold supplied, died_of. cbn [alive cause_of_death battery o2 water food].
  match goal with
  | |- context [survival_check ?b ?o ?w ?f] =>
      destruct (survival_check_cases b o w f) as [Hc | [Hc | [Hc | [Hc | Hc]]]];
      destruct Hc as [-> Hc]
  end.
  - left. split; [exact Ha |]. split; [exact Hcause |]. intros _. exact Hc.
  - right. split; [reflexivity |]. split; [| lia]. left. auto.
  - right. split; [reflexivity |]. split; [| lia]. right. left. auto.
  - right. split; [reflexivity |]. split; [| lia]. right. right. left. auto.
  - right. split; [reflexivity |]. split; [| lia]. right. right. right. auto.
Qed.

(** X14.  The outcome of a mission run on a fresh colony, whatever the
    configuration, the crew size and the draws: either it survived, with
    no cause, 500 history entries, day 500, and battery, oxygen, water and
    food all non-negative; or it died, the cause is that of the first
    negative stock among battery, oxygen, water, food, and the day of death
    is the length of the history, between 1 and 500. *)
Theorem run_mission_outcome crew config rngs self' survived cause history :
  run_mission crew (MarsColony_init config) rngs
  = Ok (self', (survived, cause, history)) ->
  (survived = true /\ cause = "" /\
   List.length history = mission_duration /\
   day self' = Z.of_nat mission_duration /\ supplied self') \/
  (survived = false /\ cause = cause_of_death self' /\ In cause causes /\
   died_of self' /\
   day self' = Z.of_nat (List.length history) /\
   (1 <= List.length history <= mission_duration)%nat).
Proof.
  intros Hrun.
  apply run_mission_inv in Hrun. destruct Hrun as (Hloop & -> & ->).
  destruct (mission_loop_history _ _ _ _ _ _ _ Hloop)
    as (days & Heq & Hlen & Hday & _ & _ & Hal).
  cbn [app] in Heq. subst days. cbn [MarsColony_init day] in Hday.
  destruct (mission_loop_invariant crew rngs mission_inv
              (fun i s s' HI Ha Hs => mission_inv_step crew i s (rngs i) s' HI Ha Hs)
              mission_duration 0%nat (MarsColony_init config) rngs [] self' history
              (fun k => eq_refl))
    as (j & _ & [Hj Hst] & _);
    [split; [reflexivity | left; repeat split; intros; lia] | exact Hloop |].
  destruct Hst as [(Ha & Hc & Hsup) | (Ha & Hdied & Hone)].
  - left. rewrite Ha, Hc. specialize (Hal Ha).
    split; [reflexivity |]. split; [reflexivity |]. split; [exact Hal |].
    split; [lia |].
    apply Hsup. unfold mission_duration in *. lia.
  - right. rewrite Ha.
    split; [reflexivity |]. split; [reflexivity |].
    split; [| split; [exact Hdied |]; split; lia].
    unfold causes.
    destruct Hdied as [[-> _] | [[-> _] | [[-> _] | [-> _]]]]; cbn; auto 6.
Qed.

Lemma run_mission_outcome_witness :
  exists self' history,
    run_mission crew_size (MarsColony_init control_config) storm_on_day_201
    = Ok (self', (alive self', cause_of_death self', history)) /\
    ((alive self' = true /\ cause_of_death self' = "" /\
      List.length history = mission_duration /\
      day self' = Z.of_nat mission_duration /\ supplied self') \/
     (alive self' = false /\ cause_of_death self' = cause_of_death self' /\
      In (cause_of_death self') causes /\
      died_of self' /\
      day self' = Z.of_nat (List.length history) /\
      (1 <= List.length history <= mission_duration)%nat)).
Proof.
  destruct (run_mission_returns crew_size (MarsColony_init control_config)
              storm_on_day_201 control_machines_ok)
    as (self' & history & Hrun).
  exists self', history. split; [exact Hrun |].
  exact (run_mission_outcome _ _ _ _ _ _ _ Hrun).
Defined.

Lemma mission_loop_dead crew n self rngs history :
  alive self = false -> mission_loop crew n self rngs history = Ok (self, history).
Proof. intros H. destruct n; cbn [mission_loop]; [| rewrite H]; reflexivity. Qed.

(** X15.  Running [a + b] days is running [a] days and then [b] more days
    on the colony and history so far, with the draws of the days that
    follow; a death in the first part ends the second at once. *)
Theorem mission_loop_splits crew (a b : nat) :
  forall self rngs history,
    mission_loop crew (a + b) self rngs history
    = ('(self1, history1) <- mission_loop crew a self rngs history ;;
       mission_loop crew b self1 (fun i => rngs (a + i)%nat) history1).
Proof.
  induction a as [| a IH]; intros self rngs history.
  - reflexivity.
  - cbn [Nat.add mission_loop].
    destruct (alive self) eqn:Ha; cbn [negb].
    + destruct (step crew self (rngs 0%nat)) as [self1 | e]; cbn [Py.bind];
        [| reflexivity].
      rewrite IH. reflexivity.
    + cbn [Py.bind]. rewrite mission_loop_dead by exact Ha. reflexivity.
Qed.

(* ================================================================== *)
(** ** [run_mcs]: counts and success rate *)
(* ================================================================== *)

Lemma dict_total_set d k v :
  dict_total (dict_set d k v) = (dict_total d - dict_get d k 0 + v)%Z.
Proof.
  induction d as [| [k' v'] rest IH]; cbn [dict_set dict_get dict_total fold_right snd].
  - lia.
  - destruct (String.eqb k k'); cbn [dict_total fold_right snd].
    + lia.
    + fold (dict_total (dict_set rest k v)). fold (dict_total rest). lia.
Qed.

Lemma dict_get_nonneg d k :
  Forall (fun kv : string * Z => (0 < snd kv)%Z) d -> (0 <= dict_get d k 0)%Z.
Proof.
  induction 1 as [| [k' v'] rest Hv Hrest IH]; cbn [dict_get]; [lia |].
  destruct (String.eqb k k'); [cbn in Hv; lia | exact IH].
Qed.

Lemma dict_set_keys d k v k0 :
  In k0 (dict_keys (dict_set d k v)) -> k0 = k \/ In k0 (dict_keys d).
Proof.
  unfold dict_keys.
  induction d as [| [k' v'] rest IH]; cbn [dict_set map fst In].
  - intros [H | []]. auto.
  - destruct (String.eqb k k'); cbn [map fst In].
    + auto.
    + intros [H | H]; [auto |]. destruct (IH H); auto.
Qed.

Lemma dict_set_ok d k v :
  dict_ok d -> In k causes -> (0 < v)%Z -> dict_ok (dict_set d k v).
Proof.
  intros [Hall Hnd] Hk Hv. split.
  - clear Hnd. induction d as [| [k' v'] rest IH]; cbn [dict_set].
    + constructor; [split; assumption | constructor].
    + inversion Hall as [| x xs Hkv Hrest]; subst.
      destruct (String.eqb k k') eqn:E.
      * constructor; [| exact Hrest]. cbn in *. tauto.
      * constructor; [exact Hkv |]. apply IH. exact Hrest.
  - clear Hall. unfold dict_keys in *.
    induction d as [| [k' v'] rest IH]; cbn [dict_set map fst].
    + repeat constructor. intros [].
    + destruct (String.eqb k k') eqn:E; cbn [map fst].
      * exact Hnd.
      * inversion Hnd as [| x xs Hnot Hnd']; subst.
        constructor; [| apply IH; exact Hnd'].
        intros Hin. apply (dict_set_keys rest k v k') in Hin.
        destruct Hin as [-> | Hin]; [| exact (Hnot Hin)].
        rewrite String.eqb_refl in E. discriminate.
Qed.

(** The trial loop: every trial adds one to the successes or to the count
    of one cause. *)
Lemma trials_account crew config n :
  forall rngs success_count death_reasons success_count' death_reasons',
    dict_ok death_reasons ->
    trials crew config n rngs success_count death_reasons
    = Ok (success_count', death_reasons') ->
    (success_count <= success_count')%Z /\
    (success_count' + dict_total death_reasons'
     = success_count + dict_total death_reasons + Z.of_nat n)%Z /\
    dict_ok death_reasons'.
Proof.
  induction n as [| n IH]; intros rngs sc d sc' d' Hok Hrun.
  - cbn in Hrun. inversion Hrun; subst. repeat split; try lia; apply Hok.
  - cbn [trials] in Hrun.
    destruct (run_mission crew (MarsColony_init config) (rngs 0%nat))
      as [[self' [[survived cause] history]] | e] eqn:Hm; [| discriminate].
    cbn [Py.bind] in Hrun.
    destruct (run_mission_cause_inv _ _ _ _ _ _ _ (cause_inv_init config) Hm)
      as [[-> _] | [-> Hcause]].
    + destruct (IH _ _ _ _ _ Hok Hrun) as (Hle & Hsum & Hok').
      repeat split; try lia; apply Hok'.
    + pose proof (dict_get_nonneg d cause
                    (Forall_impl _ (fun kv H => proj2 H) (proj1 Hok))) as Hget.
      assert (dict_ok (dict_set d cause (dict_get d cause 0 + 1))) as Hok1
        by (apply dict_set_ok; [exact Hok | exact Hcause | lia]).
      destruct (IH _ _ _ _ _ Hok1 Hrun) as (Hle & Hsum & Hok').
      rewrite dict_total_set in Hsum.
      repeat split; try lia; apply Hok'.
Qed.

Lemma dict_ok_empty : dict_ok [].
Proof. split; constructor. Qed.

(** X16.  When the trial loop of [run_mcs] ends after [n] trials, the
    successes and the counts of [death_reasons] add up to [n]; the keys of
    [death_reasons] are distinct and among the four causes, and every count
    is positive. *)
Theorem trials_counts_add_up crew config n rngs success_count death_reasons :
  trials crew config n rngs 0 [] = Ok (success_count, death_reasons) ->
  (0 <= success_count <= Z.of_nat n)%Z /\
  (success_count + dict_total death_reasons = Z.of_nat n)%Z /\
  Forall (fun kv => In (fst kv) causes /\ (0 < snd kv)%Z) death_reasons /\
  NoDup (dict_keys death_reasons).
Proof.
  intros Hrun.
  destruct (trials_account _ _ _ _ _ _ _ _ dict_ok_empty Hrun)
    as (Hle & Hsum & Hall & Hnd).
  cbn in Hsum.
  assert (0 <= dict_total death_reasons)%Z as Hpos.
  { clear - Hall. induction Hall as [| [k v] rest [_ Hv] _ IH]; cbn; [lia |].
    cbn in Hv. fold (dict_total rest). lia. }
  repeat split; auto; lia.
Qed.

Lemma trials_returns crew config n :
  machines_ok (MarsColony_init config) ->
  forall rngs success_count death_reasons,
    exists success_count' death_reasons',
      trials crew config n rngs success_count death_reasons
      = Ok (success_count', death_reasons').
Proof.
  intros Hok. induction n as [| n IH]; intros rngs sc d; cbn [trials]; [eauto |].
  destruct (run_mission_returns crew (MarsColony_init config) (rngs 0%nat) Hok)
    as (self' & history & ->).
  cbn [Py.bind]. destruct (alive self'); apply IH.
Qed.

Lemma trials_counts_witness :
  exists success_count death_reasons,
    trials crew_size control_config 3 (fun _ => storm_on_day_201) 0 []
    = Ok (success_count, death_reasons) /\
    (0 <= success_count <= 3)%Z /\
    (success_count + dict_total death_reasons = 3)%Z /\
    Forall (fun kv => In (fst kv) causes /\ (0 < snd kv)%Z) death_reasons /\
    NoDup (dict_keys death_reasons).
Proof.
  destruct (trials_returns crew_size control_config 3 control_machines_ok
              (fun _ => storm_on_day_201) 0%Z [])
    as (sc & d & Hrun).
  exists sc, d. split; [exact Hrun |].
  exact (trials_counts_add_up _ _ _ _ _ _ Hrun).
Defined.

Lemma builtin_config_machines_ok mode :
  exists config,
    MCSimConfig_init mode = Ok config /\ machines_ok (MarsColony_init config).
Proof.
  unfold MCSimConfig_init.
  destruct (String.eqb mode "OXYGENATOR_REDUNDANCY_TEST");
    destruct (String.eqb mode "BATTERY_TEST");
    eexists; (split; [reflexivity |]); apply machines_ok_init; cbn; lra.
Qed.

(** X17.  With at least one trial, [run_mcs] returns for every mode and
    every outcome of the draws, and the success rate it returns is the
    percentage of successful trials, between 0 and 100. *)
Theorem run_mcs_success_rate crew experiment_mode n_simulations rngs :
  (1 <= n_simulations)%Z ->
  exists config success_count death_reasons,
    MCSimConfig_init experiment_mode = Ok config /\
    trials crew config (Z.to_nat n_simulations) rngs 0 []
    = Ok (success_count, death_reasons) /\
    run_mcs crew experiment_mode n_simulations rngs
    = Ok (IZR success_count / IZR n_simulations * 100) /\
    0 <= IZR success_count / IZR n_simulations * 100 <= 100.
Proof.
  intros Hn.
  destruct (builtin_config_machines_ok experiment_mode) as (config & Hcfg & Hok).
  destruct (trials_returns crew config (Z.to_nat n_simulations) Hok rngs 0%Z [])
    as (sc & d & Hrun).
  exists config, sc, d. split; [exact Hcfg |]. split; [exact Hrun |].
  destruct (trials_account _ _ _ _ _ _ _ _ dict_ok_empty Hrun)
    as (Hle & Hsum & Hall & _).
  assert (0 <= dict_total d)%Z as Hpos.
  { clear - Hall. induction Hall as [| [k v] rest [_ Hv] _ IH]; cbn; [lia |].
    cbn in Hv. fold (dict_total rest). lia. }
  cbn in Hsum. rewrite Z2Nat.id in Hsum by lia.
  assert (0 < IZR n_simulations) as Hnpos by (apply IZR_lt; lia).
  assert (0 <= IZR sc) as Hsc0 by (apply IZR_le; lia).
  assert (IZR sc <= IZR n_simulations) as Hscn by (apply IZR_le; lia).
  split.
  - unfold run_mcs. rewrite Hcfg. cbn [Py.bind]. rewrite Hrun. cbn [Py.bind].
    rewrite div_ok by lra. reflexivity.
  - set (q := IZR sc / IZR n_simulations).
    assert (q * IZR n_simulations = IZR sc) as Hq by (unfold q; field; lra).
    split; nra.
Qed.

Lemma run_mcs_success_rate_witness :
  exists config success_count death_reasons,
    MCSimConfig_init "BATTERY_TEST" = Ok config /\
    trials crew_size config 2 (fun _ => storm_on_day_201) 0 []
    = Ok (success_count, death_reasons) /\
    run_mcs crew_size "BATTERY_TEST" 2 (fun _ => storm_on_day_201)
    = Ok (IZR success_count / 2 * 100) /\
    0 <= IZR success_count / 2 * 100 <= 100.
Proof.
  apply (run_mcs_success_rate crew_size "BATTERY_TEST" 2 (fun _ => storm_on_day_201)).
  lia.
Defined.

(* ================================================================== *)
(** ** Configuration modes *)
(* ================================================================== *)

(** X18.  Every mode other than "OXYGENATOR_REDUNDANCY_TEST" and
    "BATTERY_TEST" gives the values of CONTROL, with the mode recorded as
    given: an unknown or misspelt mode is not reported. *)
Theorem unknown_mode_is_control mode :
  mode <> "OXYGENATOR_REDUNDANCY_TEST" -> mode <> "BATTERY_TEST" ->
  MCSimConfig_init mode = Ok (set_mode mode control_config).
Proof.
  intros H1 H2. unfold MCSimConfig_init.
  apply String.eqb_neq in H1. apply String.eqb_neq in H2.
  rewrite H1, H2. reflexivity.
Qed.

Lemma unknown_mode_witness :
  MCSimConfig_init "battery_test" = Ok (set_mode "battery_test" control_config).
Proof.
  apply unknown_mode_is_control; intros H; discriminate H.
Defined.

(* ================================================================== *)
(** ** The machines of a colony over its days *)
(* ================================================================== *)

Lemma same_machine_refl m : same_machine m m.
Proof. repeat split. Qed.

Lemma same_machine_trans m1 m2 m3 :
  same_machine m1 m2 -> same_machine m2 m3 -> same_machine m1 m3.
Proof. unfold same_machine. intros (A & B & C) (D & E & F). repeat split; congruence. Qed.

Lemma daily_check_keeps_inv m rng p m' :
  daily_check m rng = Ok (p, m') ->
  same_machine m m' /\ (machine_inv m -> machine_inv m').
Proof.
  intros H. unfold same_machine, machine_inv.
  apply daily_check_cases in H.
  destruct H as [H | [H | [H | H]]]; destruct H as (Hb & _ & _ & ->);
    cbn [name production_rate mtbf is_broken days_to_repair set_repair];
    repeat split; auto; intros; congruence.
Qed.

(** The machines after a loop are the machines before it, in the same
    order, each related to its former self. *)
Lemma for_each_related body (Rel : Machine -> Machine -> Prop) :
  (forall m rng l m' l', body m rng l = Ok (m', l') -> Rel m m') ->
  forall machines rngs l machines' l',
    for_each body machines rngs l = Ok (machines', l') ->
    Forall2 Rel machines machines'.
Proof.
  intros Hbody machines.
  induction machines as [| m rest IH]; intros rngs l machines' l' Hrun.
  - cbn in Hrun. inversion Hrun; subst. constructor.
  - cbn [for_each] in Hrun.
    destruct (body m (rngs 0%nat) l) as [[m1 l1] | e] eqn:Hm; [| discriminate].
    cbn [Py.bind] in Hrun.
    destruct (for_each body rest (fun i => rngs (S i)) l1)
      as [[rest1 l2] | e] eqn:Hrest; [| discriminate].
    cbn [Py.bind] in Hrun. inversion Hrun; subst.
    constructor; eauto.
Qed.

Lemma step_machines crew self rng self' :
  step crew self rng = Ok self' ->
  Forall2 (fun m m' => same_machine m m' /\ (machine_inv m -> machine_inv m'))
          (oxygenators self) (oxygenators self') /\
  Forall2 (fun m m' => same_machine m m' /\ (machine_inv m -> machine_inv m'))
          (water_reclaimers self) (water_reclaimers self').
Proof.
  intros H. apply step_inv in H. destruct H as [t H].
  apply step_trace_inv in H.
  destruct H as (oxys & l1 & recs & l2 & Hrun1 & Hrun2 & _ & ->).
  cbn [oxygenators water_reclaimers]. split.
  - apply (for_each_related _ _) with (2 := Hrun1).
    intros m r l m' l' Hb. apply oxygenator_body_cases in Hb.
    destruct Hb as [(-> & _) | (p & _ & _ & Hc & _)].
    + split; [apply same_machine_refl | auto].
    + exact (daily_check_keeps_inv _ _ _ _ Hc).
  - apply (for_each_related _ _) with (2 := Hrun2).
    intros m r l m' l' Hb. apply reclaimer_body_cases in Hb.
    destruct Hb as [(-> & _) | (p & _ & _ & Hc & _)].
    + split; [apply same_machine_refl | auto].
    + exact (daily_check_keeps_inv _ _ _ _ Hc).
Qed.

Lemma related_machines_compose ms0 ms ms' :
  Forall2 same_machine ms0 ms /\ Forall machine_inv ms ->
  Forall2 (fun m m' => same_machine m m' /\ (machine_inv m -> machine_inv m'))
          ms ms' ->
  Forall2 same_machine ms0 ms' /\ Forall machine_inv ms'.
Proof.
  intros [H0 Hinv] H. revert ms0 H0 Hinv.
  induction H as [| m m' ms ms' [Hs Hi] Hrest IH]; intros ms0 H0 Hinv.
  - inversion H0; subst. split; constructor.
  - inversion H0 as [| m0 x ms0' y Hm0 Hms0]; subst.
    inversion Hinv; subst.
    destruct (IH _ Hms0 H3) as [A B].
    split; constructor; auto.
    exact (same_machine_trans _ _ _ Hm0 Hs).
Qed.

Lemma fresh_machines_inv (f : nat -> Machine) l :
  (forall i, machine_inv (f i)) ->
  Forall2 same_machine (map f l) (map f l) /\ Forall machine_inv (map f l).
Proof.
  intros Hf. induction l as [| i l [A B]]; cbn [map].
  - split; constructor.
  - split; constructor; auto. apply same_machine_refl.
Qed.

Lemma reachable_machines_inv crew config self :
  reachable crew config self ->
  cfg self = config /\
  (Forall2 same_machine (oxygenators (MarsColony_init config))
           (oxygenators self) /\ Forall machine_inv (oxygenators self)) /\
  (Forall2 same_machine (water_reclaimers (MarsColony_init config))
           (water_reclaimers self) /\
   Forall machine_inv (water_reclaimers self)).
Proof.
  intros Hreach.
  induction Hreach as [| self rng self' Hreach (IHc & IHo & IHw) Hstep].
  - split; [reflexivity |].
    split; apply fresh_machines_inv; intros i Hb; reflexivity.
  - split; [rewrite (step_keeps_cfg _ _ _ _ Hstep); exact IHc |].
    destruct (step_machines _ _ _ _ Hstep) as [So Sw].
    split; eapply related_machines_compose; eauto.
Qed.

(** X19.  In every colony reached from a fresh one by calls of [step], the
    configuration is the one it was built from, there are as many
    oxygenators and water reclaimers as at the start, in the same order and
    with the same names, rates and MTBF, and every machine satisfies the
    machine invariant ([days_to_repair == 0] when not broken). *)
Theorem reachable_machines crew config self :
  reachable crew config self ->
  cfg self = config /\
  Forall2 same_machine (oxygenators (MarsColony_init config)) (oxygenators self) /\
  Forall machine_inv (oxygenators self) /\
  Forall2 same_machine (water_reclaimers (MarsColony_init config))
          (water_reclaimers self) /\
  Forall machine_inv (water_reclaimers self) /\
  List.length (oxygenators self) = Z.to_nat (num_oxygenators config) /\
  List.length (water_reclaimers self) = Z.to_nat (num_water_reclaimers config).
Proof.
  intros Hreach.
  destruct (reachable_machines_inv _ _ _ Hreach) as (Hc & [Ho Hoi] & [Hw Hwi]).
  repeat split; auto.
  - rewrite <- (Forall2_length Ho). cbn [MarsColony_init oxygenators].
    unfold range. rewrite length_map, length_seq. reflexivity.
  - rewrite <- (Forall2_length Hw). cbn [MarsColony_init water_reclaimers].
    unfold range. rewrite length_map, length_seq. reflexivity.
Qed.

Lemma reachable_machines_witness :
  exists self',
    step crew_size (MarsColony_init control_config) (storm_on_day_201 0) = Ok self' /\
    cfg self' = control_config /\
    Forall machine_inv (oxygenators self') /\
    Forall machine_inv (water_reclaimers self') /\
    List.length (oxygenators self') = 1%nat /\
    List.length (water_reclaimers self') = 1%nat.
Proof.
  destruct (step_returns crew_size (MarsColony_init control_config)
              (storm_on_day_201 0) control_machines_ok) as (self' & Hstep & _).
  exists self'. split; [exact Hstep |].
  destruct (reachable_machines crew_size control_config self')
    as (Hc & _ & Hoi & _ & Hwi & Hlo & Hlw).
  - eapply reach_step; [apply reach_init | exact Hstep].
  - auto.
Defined.

(* ================================================================== *)
(** ** Power in a storm *)
(* ================================================================== *)

(** X20.  On a day that starts under a storm the solar panels give 2% of
    their capacity for 8 hours, and the battery ends the day at most at
    its former level plus that generation minus the base draw (machine
    costs being non-negative), whatever the draws. *)
Theorem storm_day_power crew self rng self' t :
  0 <= oxygenator_power_cost (cfg self) ->
  0 <= water_reclaimer_power_cost (cfg self) ->
  is_storming (env self) = true ->
  step_trace crew self rng = Ok (self', t) ->
  power_gen t = solar_capacity (cfg self) * 0.02 * 8 /\
  battery self' <= battery self + solar_capacity (cfg self) * 0.02 * 8
                   - daily_base_power_consumption (cfg self).
Proof.
  intros Ho Hw Hs Hstep.
  assert (step crew self rng = Ok self') as Hstep'
    by (unfold step; rewrite Hstep; reflexivity).
  destruct (step_power _ _ _ _ Ho Hw Hstep') as (_ & _ & _ & Hbal & _).
  apply step_trace_inv in Hstep.
  destruct Hstep as (oxys & l1 & recs & l2 & _ & _ & -> & _).
  cbn [power_gen].
  assert (power_gen_of self rng = solar_capacity (cfg self) * 0.02 * 8) as Hgen.
  { unfold power_gen_of, sun_eff_of.
    rewrite (efficiency_storming _ _ _ Hs). reflexivity. }
  rewrite Hgen in *. split; [reflexivity | exact Hbal].
Qed.

Lemma storm_colony_ok : machines_ok storm_colony.
Proof. split; repeat constructor; cbn; lra. Qed.

Lemma storm_day_power_witness :
  exists self' t,
    step_trace crew_size storm_colony (storm_on_day_201 203) = Ok (self', t) /\
    power_gen t = 45.0 * 0.02 * 8 /\
    battery self' <= 338.4 + 45.0 * 0.02 * 8 - 85.0.
Proof.
  destruct (step_trace_returns crew_size storm_colony (storm_on_day_201 203)
              storm_colony_ok) as (self' & t & Hstep & _).
  exists self', t. split; [exact Hstep |].
  apply (storm_day_power crew_size storm_colony (storm_on_day_201 203) self' t);
    [cbn; lra | cbn; lra | reflexivity | exact Hstep].
Defined.

(* ================================================================== *)
(** ** Water for the crops *)
(* ================================================================== *)

Lemma related_rates (f : nat -> Machine) l ms rate :
  (forall i, production_rate (f i) = rate) -> 0 <= rate ->
  Forall2 same_machine (map f l) ms ->
  Forall (fun m => 0 <= production_rate m) ms.
Proof.
  intros Hf Hr. revert ms.
  induction l as [| i l IH]; intros ms H; cbn [map] in H; inversion H; subst.
  - constructor.
  - constructor; [| apply IH; assumption].
    match goal with Hs : same_machine _ _ |- _ => destruct Hs as (_ & -> & _) end.
    rewrite Hf. exact Hr.
Qed.

(** X21.  The crops never take the water of the crew.  In a colony reached
    from a fresh one (non-negative rates and capacities), a day on which
    the crops were watered ends with water >= 0; water is negative after a
    day only if the stock plus the water reclaimed that day did not cover
    the consumption of the crew alone. *)
Theorem crops_never_cause_dehydration crew config self rng self' t :
  nonneg_config config -> 0 <= crew ->
  reachable crew config self ->
  step_trace crew self rng = Ok (self', t) ->
  0 <= water_reclaimed (after_reclaimers t) /\
  (crop_watered crew self = true -> 0 <= water self') /\
  (water self' < 0 ->
   crop_watered crew self = false /\
   water self + water_reclaimed (after_reclaimers t)
   < daily_water_consumption config * crew).
Proof.
  intros Hcfg Hcrew Hreach Hstep.
  destruct (reachable_waste _ _ _ Hcfg Hcrew Hreach) as [Hc Hwaste].
  destruct (reachable_machines_inv _ _ _ Hreach) as (_ & _ & [Hrecs _]).
  assert (Forall (fun m => 0 <= production_rate m) (water_reclaimers self)) as Hrates.
  { cbn [MarsColony_init water_reclaimers] in Hrecs.
    eapply related_rates; [| exact (nn_reclamation_rate _ Hcfg) | exact Hrecs].
    intros i. reflexivity. }
  rewrite <- Hc in Hcfg |- *.
  destruct (step_trace_waste _ _ _ _ _ Hcfg Hcrew Hwaste Hstep)
    as (_ & Hw1 & _).
  apply step_trace_inv in Hstep.
  destruct Hstep as (oxys & l1 & recs & l2 & Hrun1 & Hrun2 & -> & ->).
  cbn [after_oxygenators after_reclaimers water] in *.
  destruct (oxygenator_loop_keeps_water _ _ _ _ _ _ _ Hrun1) as [_ Hr1].
  cbn [locals_of water_reclaimed] in Hr1.
  destruct (reclaimer_loop_reclaimed_nonneg _ _ _ _ _ _ _ Hrates
              (Req_le _ _ (eq_sym Hr1)) Hw1 Hrun2) as (_ & Hrecl & _).
  pose proof (nn_max_water _ Hcfg) as Hmax.
  split; [exact Hrecl |].
  unfold water_need_of.
  destruct (crop_watered crew self) eqn:Hwat.
  - pose proof Hwat as Hle. unfold crop_watered in Hle. apply leb_true in Hle.
    assert (0 <= cap_at (max_water_tank (cfg self))
                   (water self
                    + (water_reclaimed l2
                       - (daily_water_consumption (cfg self) * crew
                          + crop_daily_water_need (cfg self))))) as Hpos
      by (apply cap_at_nonneg; lra).
    split; [intros _; exact Hpos | intros Hneg; lra].
  - split; [intros H; discriminate H |].
    intros Hneg. split; [reflexivity |].
    destruct (Rlt_le_dec (water self + water_reclaimed l2)
                (daily_water_consumption (cfg self) * crew)) as [| Hge];
      [assumption |].
    assert (0 <= cap_at (max_water_tank (cfg self))
                   (water self
                    + (water_reclaimed l2
                       - daily_water_consumption (cfg self) * crew))) as Hpos
      by (apply cap_at_nonneg; lra).
    lra.
Qed.

Lemma crops_never_cause_dehydration_witness :
  exists self' t,
    step_trace crew_size (MarsColony_init control_config) (storm_on_day_201 0)
    = Ok (self', t) /\
    0 <= water_reclaimed (after_reclaimers t) /\
    0 <= water self'.
Proof.
  destruct (step_trace_returns crew_size (MarsColony_init control_config)
              (storm_on_day_201 0) control_machines_ok)
    as (self' & t & Hstep & _).
  exists self', t. split; [exact Hstep |].
  destruct (crops_never_cause_dehydration crew_size control_config
              (MarsColony_init control_config) (storm_on_day_201 0) self' t
              control_config_nonneg)
    as (Hr & Hw & _);
    [unfold crew_size; lra | apply reach_init | exact Hstep |].
  split; [exact Hr |]. apply Hw.
  unfold crop_watered, crew_size. apply leb_true. cbn. lra.
Defined.

(* ================================================================== *)
(** ** Power in calm weather *)
(* ================================================================== *)

(** The panels of every built-in configuration cover the base draw and
    all the machines under the darkest calm sky. *)
Lemma builtin_config_calm_power mode :
  exists config,
    MCSimConfig_init mode = Ok config /\
    daily_base_power_consumption config
    + oxygenator_power_cost config
      * INR (List.length (oxygenators (MarsColony_init config)))
    + water_reclaimer_power_cost config
      * INR (List.length (water_reclaimers (MarsColony_init config)))
    <= solar_capacity config * 0.36 * 8.
Proof.
  unfold MCSimConfig_init.
  destruct (String.eqb mode "OXYGENATOR_REDUNDANCY_TEST");
    destruct (String.eqb mode "BATTERY_TEST");
    eexists; (split; [reflexivity |]);
    unfold MarsColony_init; cbn [oxygenators water_reclaimers];
    rewrite !length_map; unfold range; rewrite !length_seq;
    cbn; rewrite !INR_IZR_INZ, !positive_nat_Z; lra.
Qed.

(** X22.  When the panels under the darkest calm sky (efficiency 0.36)
    cover the base draw and the cost of all machines, a day that starts
    without a storm does not lower the battery below its former level (or
    below the capacity, when it is capped), and, the battery being
    non-negative before, the verdict of the day is not "Power Failure".
    The built-in modes satisfy the condition ([builtin_config_calm_power]). *)
Theorem calm_day_keeps_battery crew self rng self' t :
  0 <= oxygenator_power_cost (cfg self) ->
  0 <= water_reclaimer_power_cost (cfg self) ->
  0 <= solar_capacity (cfg self) ->
  is_storming (env self) = false ->
  daily_base_power_consumption (cfg self)
  + oxygenator_power_cost (cfg self) * INR (List.length (oxygenators self))
  + water_reclaimer_power_cost (cfg self) * INR (List.length (water_reclaimers self))
  <= solar_capacity (cfg self) * 0.36 * 8 ->
  step_trace crew self rng = Ok (self', t) ->
  Rmin (battery self) (max_battery (cfg self)) <= battery self' /\
  (0 <= battery self -> 0 <= max_battery (cfg self) ->
   death t <> Some "Power Failure").
Proof.
  intros Hoxy Hrec Hsolar Hcalm Hcover Hstep.
  apply step_trace_inv in Hstep.
  destruct Hstep as (oxys & l1 & recs & l2 & Hrun1 & Hrun2 & -> & ->).
  cbn [battery death].
  destruct (for_each_dispatch _ _ _
              (oxygenator_body_guard (cfg self) (o2 self))
              _ _ _ _ _ Hrun1) as (_ & _ & Ht1).
  destruct (for_each_dispatch _ _ _
              (reclaimer_body_guard (cfg self) (water self))
              _ _ _ _ _ Hrun2) as (_ & _ & Ht2).
  cbn [locals_of total_power_need] in Ht1.
  match type of Ht1 with
  | context [ran_count ?r] =>
      pose proof (ran_count_le r) as Hc1; rewrite dispatch_length in Hc1;
      apply le_INR in Hc1; set (n1 := INR (ran_count r)) in *
  end.
  match type of Ht2 with
  | context [ran_count ?r] =>
      pose proof (ran_count_le r) as Hc2; rewrite dispatch_length in Hc2;
      apply le_INR in Hc2; set (n2 := INR (ran_count r)) in *
  end.
  assert (solar_capacity (cfg self) * 0.36 * 8 <= power_gen_of self rng) as Hgen.
  { unfold power_gen_of, sun_eff_of.
    pose proof (efficiency_calm_bounds (env self)
                  (IZR ((day self + 1) mod 360)) (storm_draw rng) Hcalm) as [Hlo _].
    nra. }
  assert (total_power_need l2 <= power_gen_of self rng) as Hneed by nra.
  set (battery_sum := battery self + (power_gen_of self rng - total_power_need l2)).
  assert (battery self <= battery_sum) as Hsum by (unfold battery_sum; lra).
  assert (Rmin (battery self) (max_battery (cfg self))
          <= cap_at (max_battery (cfg self)) battery_sum) as Hmin.
  { unfold Rmin. destruct (Rle_dec (battery self) (max_battery (cfg self)));
      py_cases; lra. }
  split; [exact Hmin |].
  intros Hb Hmax Hpf. apply survival_check_power in Hpf.
  unfold Rmin in Hmin.
  destruct (Rle_dec (battery self) (max_battery (cfg self))); lra.
Qed.

Lemma calm_day_keeps_battery_witness :
  exists self' t,
    step_trace crew_size (MarsColony_init control_config) (storm_on_day_201 0)
    = Ok (self', t) /\
    Rmin 500.0 500.0 <= battery self' /\
    (0 <= 500.0 -> 0 <= 500.0 -> death t <> Some "Power Failure").
Proof.
  destruct (step_trace_returns crew_size (MarsColony_init control_config)
              (storm_on_day_201 0) control_machines_ok)
    as (self' & t & Hstep & _).
  exists self', t. split; [exact Hstep |].
  apply (calm_day_keeps_battery crew_size (MarsColony_init control_config)
           (storm_on_day_201 0) self' t).
  - cbn. lra.
  - cbn. lra.
  - cbn. lra.
  - reflexivity.
  - change (List.length (oxygenators (MarsColony_init control_config)))
      with 1%nat.
    change (List.length (water_reclaimers (MarsColony_init control_config)))
      with 1%nat.
    cbn. lra.
  - exact Hstep.
Defined.

(** [math.exp] in [get_sunlight_efficiency] never raises: the optical
    depth is at least 0.3, with or without the opacity of a storm. *)
Lemma sunlight_exp_defined x storm_opacity :
  0 <= storm_opacity ->
  Py.math_exp (Py.finite (- (0.65 - 0.35 * sin x + storm_opacity)))
  = Ok (Py.finite (exp (- (0.65 - 0.35 * sin x + storm_opacity)))).
Proof.
  intros H. apply math_exp_ok.
  pose proof (tau_base_bounds x). unfold Py.exp_max. lra.
Qed.
